(** * bobafm: the mode-based interaction state machine of [main.go]

    A shallow embedding of the file manager's dispatcher ([Update]), catalog
    refresh ([refreshBrowse]), text-entry commit ([handleInput]) and
    clipboard replay ([copyFile], the paste loop), together with a model of
    the parts of the Go standard library they call ([strings], [filepath],
    [os]) and of the widgets of the UI toolkit.

    Conventions.
    - A Go [string] is a Rocq [string] (a sequence of 8-bit bytes).
    - A path held by the embedding is absolute and lexically clean
      ([os.Getwd], [filepath.Join] and [filepath.Dir] produce nothing
      else); it is represented by the list of its components, the root
      ["/"] being [[]].  The one string that the program takes as its
      directory without cleaning it is the mount point picked in the mount
      menu: when it is not a clean absolute path the event has the outcome
      [Beyond].
    - Calls that can fail return their error; the program drops it the way
      the source does.  A Go run-time panic is the [Panic] outcome of
      [result]. *)

From Stdlib Require Import Ascii String NArith.
From stdpp Require Import base option list strings sorting gmap.

Local Open Scope N_scope.

(** ** Outcomes of a handler

    A value; a run-time panic; or [Beyond dir]: the program goes on, with
    the string [dir] as its current directory, which is not a clean
    absolute path, and the embedding does not follow it there. *)

Inductive result (A : Type) : Type :=
  | Ok (a : A)
  | Panic (reason : string)
  | Beyond (dir : string).
Arguments Ok {A} a.
Arguments Panic {A} reason.
Arguments Beyond {A} dir.

Definition rbind {A B} (r : result A) (k : A → result B) : result B :=
  match r with
  | Ok a => k a
  | Panic s => Panic s
  | Beyond d => Beyond d
  end.

Notation "x ←! r ; k" := (rbind r (λ x, k))
  (at level 20, r at level 100, k at level 200, right associativity,
   format "x  ←!  r ;  '/' k").
Notation "' p ←! r ; k" := (rbind r (λ p, k))
  (at level 20, p pattern, r at level 100, k at level 200,
   right associativity).

Fixpoint foldR {A S} (f : S → A → result S) (l : list A) (s : S) : result S :=
  match l with
  | [] => Ok s
  | a :: l' => s' ←! f s a; foldR f l' s'
  end.

(** ** Byte strings *)

Abbreviation bytes := (list ascii).

Definition to_bytes (s : string) : bytes := list_ascii_of_string s.
Definition of_bytes (l : bytes) : string := string_of_list_ascii l.

(** ** Package [strings] *)

Module strings.

(** The UTF-8 encodings of the runes for which [unicode.IsSpace] holds:
    the ASCII ones (tab, line feed, vertical tab, form feed, carriage
    return, space), U+0085, U+00A0, and the [White_Space] runes above
    Latin-1: U+1680, U+2000..U+200A, U+2028, U+2029, U+202F, U+205F,
    U+3000. *)
Definition isSpaceRune (r : list N) : bool :=
  match r with
  | [b] => ((9 <=? b) && (b <=? 13)) || (b =? 32)
  | [b1; b2] => (b1 =? 194) && ((b2 =? 133) || (b2 =? 160))
  | [b1; b2; b3] =>
      ((b1 =? 225) && (b2 =? 154) && (b3 =? 128))
      || ((b1 =? 226) && (b2 =? 128)
          && (((128 <=? b3) && (b3 <=? 138))
              || (b3 =? 168) || (b3 =? 169) || (b3 =? 175)))
      || ((b1 =? 226) && (b2 =? 129) && (b3 =? 159))
      || ((b1 =? 227) && (b2 =? 128) && (b3 =? 128))
  | _ => false
  end.

Definition codes (l : bytes) : list N := N_of_ascii <$> l.

(** Width in bytes of the white-space rune [l] starts with; [0] if it
    starts with none. *)
Definition leadingSpace (l : bytes) : nat :=
  if isSpaceRune (codes (take 1 l)) then 1%nat
  else if isSpaceRune (codes (take 2 l)) then 2%nat
  else if isSpaceRune (codes (take 3 l)) then 3%nat
  else 0%nat.

(** Width in bytes of the white-space rune [l] ends with. *)
Definition trailingSpace (l : bytes) : nat :=
  if isSpaceRune (codes (drop (length l - 1) l)) then 1%nat
  else if isSpaceRune (codes (drop (length l - 2) l)) then 2%nat
  else if isSpaceRune (codes (drop (length l - 3) l)) then 3%nat
  else 0%nat.

Fixpoint trimLeft (fuel : nat) (l : bytes) : bytes :=
  match fuel with
  | O => l
  | S fuel' =>
      match leadingSpace l with
      | O => l
      | k => trimLeft fuel' (drop k l)
      end
  end.

Fixpoint trimRight (fuel : nat) (l : bytes) : bytes :=
  match fuel with
  | O => l
  | S fuel' =>
      match trailingSpace l with
      | O => l
      | k => trimRight fuel' (take (length l - k) l)
      end
  end.

(** [strings.TrimSpace]: all leading and trailing white space removed. *)
Definition TrimSpace (s : string) : string :=
  let l := to_bytes s in
  let l1 := trimLeft (length l) l in
  of_bytes (trimRight (length l1) l1).

(** [strings.HasSuffix]. *)
Definition HasSuffix (s suffix : string) : bool :=
  let l := to_bytes s in
  let x := to_bytes suffix in
  bool_decide (drop (length l - length x) l = x).

End strings.

(** ** Package [path/filepath] *)

Abbreviation pathname := (list string).

Module filepath.

(** The pieces of [l] between separators ['/']. *)
Fixpoint fields (cur : bytes) (l : bytes) : list bytes :=
  match l with
  | [] => [reverse cur]
  | c :: l' =>
      if Ascii.eqb c "/" then reverse cur :: fields [] l'
      else fields (c :: cur) l'
  end.

Definition components (s : string) : list string :=
  of_bytes <$> fields [] (to_bytes s).

(** One step of [filepath.Clean] on an absolute path: empty and ["."]
    components vanish, [".."] removes the component before it and is
    dropped at the root. *)
Definition cleanStep (acc : pathname) (c : string) : pathname :=
  if decide (c = "" ∨ c = ".") then acc
  else if decide (c = "..") then removelast acc
  else acc ++ [c].

(** [filepath.Join(dir, elem)] for a clean absolute [dir]. *)
Definition Join (dir : pathname) (elem : string) : pathname :=
  fold_left cleanStep (components elem) dir.

(** [filepath.Dir]: the root is its own parent. *)
Definition Dir (p : pathname) : pathname := removelast p.

(** [filepath.Base]: the last component, ["/"] for the root. *)
Definition Base (p : pathname) : string := List.last p "/".

(** The textual form of a path. *)
Definition render (p : pathname) : string :=
  match p with
  | [] => "/"
  | _ => String.concat "" ((λ c, "/" +:+ c) <$> p)
  end.

End filepath.

(** ** The file system and package [os]

    The file system is a tree: a regular file holds its bytes, a directory
    its named children.  The whole tree is the root directory. *)

#[local] Set Warnings "-register-all".
Inductive node : Type :=
  | File (data : bytes)
  | Dir (children : list (string * node)).
#[local] Set Warnings "register-all".

Abbreviation filesys := node.

(** What [stat] reports about a path: a regular file with its content, or
    a directory. *)
Inductive kind : Type :=
  | KFile (data : bytes)
  | KDir.

Global Instance kind_eq_dec : EqDecision kind.
Proof. solve_decision. Defined.

Inductive error : Type :=
  | ENOENT | ENOTDIR | EEXIST | EISDIR | ENOTEMPTY | EINVAL | EBUSY | EXDEV.

Module os.

Fixpoint child (c : string) (cs : list (string * node)) : option node :=
  match cs with
  | [] => None
  | (c', n) :: r => if decide (c = c') then Some n else child c r
  end.

Fixpoint setChild (c : string) (x : node) (cs : list (string * node))
  : list (string * node) :=
  match cs with
  | [] => [(c, x)]
  | (c', n) :: r =>
      if decide (c = c') then (c, x) :: r else (c', n) :: setChild c x r
  end.

Fixpoint delChild (c : string) (cs : list (string * node))
  : list (string * node) :=
  match cs with
  | [] => []
  | (c', n) :: r =>
      if decide (c = c') then delChild c r else (c', n) :: delChild c r
  end.

(** The node a path leads to. *)
Fixpoint find (p : pathname) (n : node) : option node :=
  match p with
  | [] => Some n
  | c :: p' =>
      match n with
      | File _ => None
      | Dir cs =>
          match child c cs with
          | Some n' => find p' n'
          | None => None
          end
      end
  end.

Definition stat (p : pathname) (fs : filesys) : option kind :=
  match find p fs with
  | Some (File b) => Some (KFile b)
  | Some (Dir _) => Some KDir
  | None => None
  end.

(** Link [x] at [p], replacing what is there; the parent of [p] must be a
    directory. *)
Fixpoint put (p : pathname) (x : node) (n : node) : option node :=
  match p with
  | [] => Some x
  | c :: p' =>
      match n with
      | File _ => None
      | Dir cs =>
          match p' with
          | [] => Some (Dir (setChild c x cs))
          | _ =>
              match child c cs with
              | Some ch =>
                  match put p' x ch with
                  | Some ch' => Some (Dir (setChild c ch' cs))
                  | None => None
                  end
              | None => None
              end
          end
      end
  end.

(** Unlink the subtree at [p]. *)
Fixpoint remove (p : pathname) (n : node) : option node :=
  match p with
  | [] => None
  | c :: p' =>
      match n with
      | File _ => None
      | Dir cs =>
          match child c cs with
          | Some ch =>
              match p' with
              | [] => Some (Dir (delChild c cs))
              | _ =>
                  match remove p' ch with
                  | Some ch' => Some (Dir (setChild c ch' cs))
                  | None => None
                  end
              end
          | None => None
          end
      end
  end.

(** *** Directory listing *)

Record DirEntry : Type := { Name : string; IsDir : bool }.

Definition isDirNode (n : node) : bool :=
  match n with Dir _ => true | File _ => false end.

Definition entryLe (a b : DirEntry) : Prop := String.le (Name a) (Name b).

Global Instance entryLe_dec : RelDecision entryLe.
Proof. intros a b. unfold entryLe. apply _. Defined.

(** [os.ReadDir]: the entries of a directory sorted by file name, and the
    error.  A directory entry always has a non-empty name. *)
Definition ReadDir (fs : filesys) (p : pathname) : list DirEntry * option error :=
  match find p fs with
  | Some (Dir cs) =>
      (merge_sort entryLe
         ((λ e, {| Name := e.1; IsDir := isDirNode e.2 |})
            <$> filter (λ e, e.1 ≠ "") cs),
       None)
  | Some (File _) => ([], Some ENOTDIR)
  | None => ([], Some ENOENT)
  end.

(** *** Creation *)

(** [os.MkdirAll]: [p] and every missing ancestor become directories; an
    error, and no change, when a regular file is in the way. *)
Fixpoint mkdirAll (p : pathname) (n : node) : option node :=
  match n with
  | File _ => None
  | Dir cs =>
      match p with
      | [] => Some n
      | c :: p' =>
          match mkdirAll p' (default (Dir []) (child c cs)) with
          | Some n' => Some (Dir (setChild c n' cs))
          | None => None
          end
      end
  end.

Definition MkdirAll (p : pathname) (fs : filesys) : filesys * option error :=
  match mkdirAll p fs with
  | Some fs' => (fs', None)
  | None => (fs, Some ENOTDIR)
  end.

(** An open file: the path it was opened at. *)
Abbreviation handle := pathname.

(** [os.OpenFile(p, os.O_CREATE|os.O_EXCL, 0644)]: a new empty regular
    file, or [nil] and [EEXIST] when the path is taken. *)
Definition OpenFileCreateExcl (p : pathname) (fs : filesys)
  : filesys * option handle * option error :=
  match stat p fs with
  | Some _ => (fs, None, Some EEXIST)
  | None =>
      match put p (File []) fs with
      | Some fs' => (fs', Some p, None)
      | None => (fs, None, Some ENOENT)
      end
  end.

(** [os.Open]: any existing file or directory can be opened for
    reading. *)
Definition Open (p : pathname) (fs : filesys) : option handle * option error :=
  match stat p fs with
  | Some _ => (Some p, None)
  | None => (None, Some ENOENT)
  end.

(** [os.Create]: the regular file at [p] is created or truncated. *)
Definition Create (p : pathname) (fs : filesys) : filesys * option handle * option error :=
  match stat p fs with
  | Some KDir => (fs, None, Some EISDIR)
  | _ =>
      match put p (File []) fs with
      | Some fs' => (fs', Some p, None)
      | None => (fs, None, Some ENOENT)
      end
  end.

(** [os.ReadFile]. *)
Definition ReadFile (p : pathname) (fs : filesys) : bytes * option error :=
  match stat p fs with
  | Some (KFile b) => (b, None)
  | Some KDir => ([], Some EISDIR)
  | None => ([], Some ENOENT)
  end.

(** *** Moving and removing *)

Definition isPrefix (p q : pathname) : bool := bool_decide (p `prefix_of` q).

(** May [x] be renamed onto what is at the destination?  [os.Rename]
    looks at the destination first and refuses every existing directory
    with [EEXIST], an empty one included; a regular file is replaced by a
    regular file. *)
Definition replaceable (x : node) (target : option node) : option error :=
  match target, x with
  | None, _ => None
  | Some (Dir _), _ => Some EEXIST
  | Some (File _), File _ => None
  | Some (File _), Dir _ => Some ENOTDIR
  end.

(** [os.Rename] (rename(2)): the subtree at [old] moves to [new].  [vol]
    tells the mounted file system that a path belongs to: a move from one
    to another fails with [EXDEV]. *)
Definition Rename (vol : pathname → N) (old new : pathname) (fs : filesys)
  : filesys * option error :=
  match find old fs with
  | None => (fs, Some ENOENT)
  | Some x =>
      match replaceable x (find new fs) with
      | Some e => (fs, Some e)
      | None =>
          if decide (old = new) then (fs, None)
          else if decide (vol old ≠ vol new) then (fs, Some EXDEV)
          else if decide (old = [] ∨ new = []) then (fs, Some EBUSY)
          else if isPrefix old new then (fs, Some EINVAL)
          else
            match remove old fs with
            | Some fs1 =>
                match put new x fs1 with
                | Some fs2 => (fs2, None)
                | None => (fs, Some ENOENT)
                end
            | None => (fs, Some ENOENT)
            end
      end
  end.

(** [os.RemoveAll]: the path and everything below it; no error when the
    path does not exist.  The root itself stays. *)
Definition RemoveAll (p : pathname) (fs : filesys) : filesys * option error :=
  match p with
  | [] =>
      match fs with
      | Dir _ => (Dir [], Some EBUSY)
      | File _ => (fs, Some EBUSY)
      end
  | _ =>
      match remove p fs with
      | Some fs' => (fs', None)
      | None => (fs, None)
      end
  end.

End os.

(** ** Package [io] *)

Module io.

(** [io.Copy(out, in)]: every byte readable from [in] is written to
    [out].  A [nil] file on either side and a directory as the source
    are errors, and nothing is written. *)
Definition Copy (out src : option os.handle) (fs : filesys) : filesys * option error :=
  match out, src with
  | Some d, Some s =>
      match os.stat s fs with
      | Some (KFile b) =>
          match os.put d (File b) fs with
          | Some fs' => (fs', None)
          | None => (fs, Some ENOENT)
          end
      | Some KDir => (fs, Some EISDIR)
      | None => (fs, Some ENOENT)
      end
  | _, _ => (fs, Some EINVAL)
  end.

End io.

(** ** The UI toolkit

    The list, text-input and viewport widgets and the event loop belong to
    the toolkit.  Their state is modelled as far as the program reads or
    writes it; their own reaction to an event ([Update]) and the external
    commands are the members of [Toolkit]. *)

Record fileItem : Type := {
  name : string;
  path : pathname;
  isDir : bool;
  isParent : bool;
}.

Record mountItem : Type := { dev : string; mount : string }.

(** A [list.Item] is one of the two row types. *)
Inductive Item : Type :=
  | FileRow (i : fileItem)
  | MountRow (i : mountItem).

Inductive Msg : Type :=
  | KeyMsg (k : string)
  | WindowSizeMsg (Width Height : Z).

Inductive Cmd : Type :=
  | CmdNil
  | CmdQuit
  | CmdExecProcess (prog : string) (arg : pathname)
  | CmdWidget (tag : N).

Module key.
(** A binding is the list of keys it answers to. *)
Abbreviation Binding := (list string).

Definition Matches (msg : Msg) (b : Binding) : bool :=
  match msg with
  | KeyMsg k => bool_decide (k ∈ b)
  | WindowSizeMsg _ _ => false
  end.
End key.

Module blist.
Record Model : Type := {
  items : list Item;
  index : nat;
  Title : string;
  width : Z;
  height : Z;
}.

Definition New : Model :=
  {| items := []; index := 0%nat; Title := "List"; width := 0; height := 0 |}.

(** [SelectedItem]: the row under the cursor, [nil] when there is none. *)
Definition SelectedItem (l : Model) : option Item := items l !! index l.

Definition SetItems (its : list Item) (l : Model) : Model :=
  {| items := its; index := index l; Title := Title l;
     width := width l; height := height l |}.

Definition SetTitle (t : string) (l : Model) : Model :=
  {| items := items l; index := index l; Title := t;
     width := width l; height := height l |}.

Definition SetSize (w h : Z) (l : Model) : Model :=
  {| items := items l; index := index l; Title := Title l;
     width := w; height := h |}.
End blist.

Module textinput.
Record Model : Type := { Value : string }.
(** [SetValue]: the widget holds runes, not bytes, and cleans what it is
    given; [keep] is what it keeps of a string. *)
Definition SetValue (keep : string → string) (s : string) (t : Model)
  : Model := {| Value := keep s |}.
End textinput.

Module viewport.
Record Model : Type := { content : string; Width : Z; Height : Z }.
Definition SetContent (s : string) (v : Model) : Model :=
  {| content := s; Width := Width v; Height := Height v |}.
Definition SetSizes (w h : Z) (v : Model) : Model :=
  {| content := content v; Width := w; Height := h |}.
End viewport.

Class Toolkit : Type := {
  (** the widgets' own handling of an event *)
  list_Update : Msg → blist.Model → blist.Model * Cmd;
  textinput_Update : Msg → textinput.Model → textinput.Model * Cmd;
  viewport_Update : Msg → viewport.Model → viewport.Model * Cmd;
  (** what the text input keeps of a string set as its value: it drops
      what is not valid UTF-8 and control characters, and turns tabs and
      line ends into spaces *)
  textinput_sanitize : string → string;
  (** the mounted file system that a path belongs to: for a mount point
      the one mounted there, for any other path the one of its parent
      directory *)
  volume : filesys → pathname → N;
  (** [lsblk -nrpo NAME,MOUNTPOINT]: for each line of the output, its
      white-space separated fields *)
  lsblk : filesys → list (list string);
  (** [udisksctl mount|unmount -b dev] *)
  udisksctl : string → string → filesys → filesys;
}.

(** ** The program *)

Inductive Mode : Type := ModeBrowse | ModeMounts | ModeInput | ModeView.
Inductive ClipboardMode : Type := ClipNone | ClipCopy | ClipCut.

Global Instance Mode_eq_dec : EqDecision Mode.
Proof. solve_decision. Defined.
Global Instance ClipboardMode_eq_dec : EqDecision ClipboardMode.
Proof. solve_decision. Defined.

Record keyMap : Type := {
  Up : key.Binding; Down : key.Binding; Enter : key.Binding;
  Mark : key.Binding; Yank : key.Binding; Cut : key.Binding;
  Paste : key.Binding; New : key.Binding; Rename : key.Binding;
  Delete : key.Binding; View : key.Binding; Mount : key.Binding;
  ToggleHidden : key.Binding; Filter : key.Binding; Quit : key.Binding;
  Back : key.Binding;
}.

Definition newKeyMap : keyMap := {|
  Up := ["up"; "k"]; Down := ["down"; "j"]; Enter := ["enter"];
  Mark := [" "]; Yank := ["y"]; Cut := ["x"]; Paste := ["p"];
  New := ["i"]; Rename := ["r"]; Delete := ["d"]; View := ["v"];
  Mount := ["m"]; ToggleHidden := ["h"]; Filter := ["/"]; Quit := ["q"];
  Back := ["esc"];
|}.

Record model : Type := {
  mode : Mode;
  cwd : pathname;
  showHidden : bool;
  browse : blist.Model;
  mounts : blist.Model;
  input : textinput.Model;
  view : viewport.Model;
  marked : gmap pathname bool;
  clipboard : list pathname;
  clipMode : ClipboardMode;
  editor : string;
  inputTarget : string;
  keys : keyMap;
}.

(** Assignments to the fields of the model. *)
Definition set_mode (x : Mode) (m : model) : model :=
  {| mode := x; cwd := cwd m; showHidden := showHidden m; browse := browse m;
     mounts := mounts m; input := input m; view := view m;
     marked := marked m; clipboard := clipboard m; clipMode := clipMode m;
     editor := editor m; inputTarget := inputTarget m; keys := keys m |}.
Definition set_cwd (x : pathname) (m : model) : model :=
  {| mode := mode m; cwd := x; showHidden := showHidden m; browse := browse m;
     mounts := mounts m; input := input m; view := view m;
     marked := marked m; clipboard := clipboard m; clipMode := clipMode m;
     editor := editor m; inputTarget := inputTarget m; keys := keys m |}.
Definition set_showHidden (x : bool) (m : model) : model :=
  {| mode := mode m; cwd := cwd m; showHidden := x; browse := browse m;
     mounts := mounts m; input := input m; view := view m;
     marked := marked m; clipboard := clipboard m; clipMode := clipMode m;
     editor := editor m; inputTarget := inputTarget m; keys := keys m |}.
Definition set_browse (x : blist.Model) (m : model) : model :=
  {| mode := mode m; cwd := cwd m; showHidden := showHidden m; browse := x;
     mounts := mounts m; input := input m; view := view m;
     marked := marked m; clipboard := clipboard m; clipMode := clipMode m;
     editor := editor m; inputTarget := inputTarget m; keys := keys m |}.
Definition set_mounts (x : blist.Model) (m : model) : model :=
  {| mode := mode m; cwd := cwd m; showHidden := showHidden m;
     browse := browse m; mounts := x; input := input m; view := view m;
     marked := marked m; clipboard := clipboard m; clipMode := clipMode m;
     editor := editor m; inputTarget := inputTarget m; keys := keys m |}.
Definition set_input (x : textinput.Model) (m : model) : model :=
  {| mode := mode m; cwd := cwd m; showHidden := showHidden m;
     browse := browse m; mounts := mounts m; input := x; view := view m;
     marked := marked m; clipboard := clipboard m; clipMode := clipMode m;
     editor := editor m; inputTarget := inputTarget m; keys := keys m |}.
Definition set_view (x : viewport.Model) (m : model) : model :=
  {| mode := mode m; cwd := cwd m; showHidden := showHidden m;
     browse := browse m; mounts := mounts m; input := input m; view := x;
     marked := marked m; clipboard := clipboard m; clipMode := clipMode m;
     editor := editor m; inputTarget := inputTarget m; keys := keys m |}.
Definition set_marked (x : gmap pathname bool) (m : model) : model :=
  {| mode := mode m; cwd := cwd m; showHidden := showHidden m;
     browse := browse m; mounts := mounts m; input := input m; view := view m;
     marked := x; clipboard := clipboard m; clipMode := clipMode m;
     editor := editor m; inputTarget := inputTarget m; keys := keys m |}.
Definition set_clipboard (x : list pathname) (m : model) : model :=
  {| mode := mode m; cwd := cwd m; showHidden := showHidden m;
     browse := browse m; mounts := mounts m; input := input m; view := view m;
     marked := marked m; clipboard := x; clipMode := clipMode m;
     editor := editor m; inputTarget := inputTarget m; keys := keys m |}.
Definition set_clipMode (x : ClipboardMode) (m : model) : model :=
  {| mode := mode m; cwd := cwd m; showHidden := showHidden m;
     browse := browse m; mounts := mounts m; input := input m; view := view m;
     marked := marked m; clipboard := clipboard m; clipMode := x;
     editor := editor m; inputTarget := inputTarget m; keys := keys m |}.
Definition set_inputTarget (x : string) (m : model) : model :=
  {| mode := mode m; cwd := cwd m; showHidden := showHidden m;
     browse := browse m; mounts := mounts m; input := input m; view := view m;
     marked := marked m; clipboard := clipboard m; clipMode := clipMode m;
     editor := editor m; inputTarget := x; keys := keys m |}.

(** [m.marked[p]]: a missing key reads as [false]. *)
Definition isMarked (m : model) (p : pathname) : bool :=
  default false (marked m !! p).

(** [s[0]]: indexing an empty string panics. *)
Definition firstByte (s : string) : result ascii :=
  match s with
  | String c _ => Ok c
  | EmptyString => Panic "index out of range [0] with length 0"
  end.

(** The type assertions [x.(fileItem)] and [x.(mountItem)]: they panic on
    [nil] and on a row of the other type. *)
Definition asFileItem (x : option Item) : result fileItem :=
  match x with
  | Some (FileRow i) => Ok i
  | Some (MountRow _) => Panic "interface conversion: not main.fileItem"
  | None => Panic "interface conversion: interface is nil"
  end.

Definition asMountItem (x : option Item) : result mountItem :=
  match x with
  | Some (MountRow i) => Ok i
  | Some (FileRow _) => Panic "interface conversion: not main.mountItem"
  | None => Panic "interface conversion: interface is nil"
  end.

(** [m.cwd = s] for a string that comes from outside: only a clean
    absolute path, one that [filepath.Clean] leaves as it is, can be
    held. *)
Definition asDir (s : string) : result pathname :=
  let p := filepath.Join [] s in
  if decide (filepath.render p = s) then Ok p else Beyond s.

(** *** [refreshBrowse] *)

Definition parentItem (parent : pathname) : fileItem :=
  {| name := ".."; path := parent; isDir := true; isParent := true |}.

Definition entryItem (dir : pathname) (e : os.DirEntry) : fileItem :=
  {| name := os.Name e; path := filepath.Join dir (os.Name e);
     isDir := os.IsDir e; isParent := false |}.

(** The body of the loop over the entries; [acc] is [(dirs, files)]. *)
Definition refreshStep (m : model) (acc : list Item * list Item)
    (e : os.DirEntry) : result (list Item * list Item) :=
  hidden ←! (if showHidden m then Ok false
             else c ←! firstByte (os.Name e); Ok (Ascii.eqb c "."));
  if (hidden : bool) then Ok acc
  else
    let item := FileRow (entryItem (cwd m) e) in
    if os.IsDir e then Ok (acc.1 ++ [item], acc.2)
    else Ok (acc.1, acc.2 ++ [item]).

Definition browseTitle (m : model) : string :=
  let title := "bobafm — " +:+ filepath.render (cwd m) in
  if showHidden m then title +:+ " (hidden)" else title.

(** The part of [refreshBrowse] after the call of [os.ReadDir]. *)
Definition refreshWith (r : list os.DirEntry * option error) (m : model)
  : result model :=
  match r.2 with
  | Some _ => Ok m
  | None =>
      let parent := filepath.Dir (cwd m) in
      let dirs :=
        if decide (parent ≠ cwd m) then [FileRow (parentItem parent)] else [] in
      acc ←! foldR (refreshStep m) r.1 (dirs, []);
      let items := acc.1 ++ acc.2 in
      Ok (set_browse
            (blist.SetItems items (blist.SetTitle (browseTitle m) (browse m)))
            m)
  end.

Definition refreshBrowse (fs : filesys) (m : model) : result model :=
  refreshWith (os.ReadDir fs (cwd m)) m.

Section Dispatcher.
Context `{Toolkit}.

(** *** [handleInput] *)

Definition handleInput (fs : filesys) (m : model) : result (model * filesys) :=
  let input := strings.TrimSpace (textinput.Value (input m)) in
  if decide (input = "") then Ok (m, fs)
  else
    fs' ←! (if decide (inputTarget m = "create") then
              let full := filepath.Join (cwd m) input in
              let isDir := strings.HasSuffix input "/" in
              let parent := filepath.Dir full in
              let fs1 := (os.MkdirAll parent fs).1 in
              if isDir then Ok (os.MkdirAll full fs1).1
              else Ok (os.OpenFileCreateExcl full fs1).1.1
            else if decide (inputTarget m = "rename") then
              item ←! asFileItem (blist.SelectedItem (browse m));
              let dst := filepath.Join (cwd m) input in
              Ok (os.Rename (volume fs) (path item) dst fs).1
            else Ok fs);
    m' ←! refreshBrowse fs' (set_mode ModeBrowse m);
    Ok (m', fs').

(** *** The clipboard *)

(** [keys]: the keys of the map, whatever their values; Go enumerates them
    in an unspecified order. *)
Definition keysOf (m : gmap pathname bool) : list pathname :=
  (map_to_list m).*1.

Definition copyFile (src dst : pathname) (fs : filesys) : filesys :=
  let in_ := (os.Open src fs).1 in
  let '(fs1, out, _) := os.Create dst fs in
  (io.Copy out in_ fs1).1.

(** The body of the paste loop.  No step of the loop mounts or unmounts
    anything: [vol] is the map of the volumes when the event arrives. *)
Definition pasteStep (vol : pathname → N) (m : model) (fs : filesys)
    (src : pathname) : filesys :=
  let dst := filepath.Join (cwd m) (filepath.Base src) in
  if decide (clipMode m = ClipCopy) then copyFile src dst fs
  else (os.Rename vol src dst fs).1.

Definition pasteAll (m : model) (fs : filesys) : filesys :=
  fold_left (pasteStep (volume fs) m) (clipboard m) fs.

(** *** [refreshMounts] *)

Definition mountRow (f : list string) : list Item :=
  match f with
  | [] => []
  | d :: rest =>
      [MountRow {| dev := d; mount := match rest with
                                      | [] => ""
                                      | mp :: _ => mp
                                      end |}]
  end.

Definition refreshMounts (fs : filesys) (m : model) : model :=
  set_mounts (blist.SetItems (lsblk fs ≫= mountRow) (mounts m)) m.

(** *** [Update] *)

(** The end of [Update]: the visible list handles the event too. *)
Definition finish (msg : Msg) (m : model) (fs : filesys)
  : result (model * filesys * Cmd) :=
  let '(m1, cmd1) :=
    if decide (mode m = ModeBrowse) then
      let '(b, c) := list_Update msg (browse m) in (set_browse b m, c)
    else (m, CmdNil) in
  let '(m2, cmd2) :=
    if decide (mode m1 = ModeMounts) then
      let '(b, c) := list_Update msg (mounts m1) in (set_mounts b m1, c)
    else (m1, cmd1) in
  Ok (m2, fs, cmd2).

Definition updateBrowse (msg : Msg) (m : model) (fs : filesys)
  : result (model * filesys * Cmd) :=
  let k := keys m in
  if key.Matches msg (Quit k) then Ok (m, fs, CmdQuit)
  else if key.Matches msg (ToggleHidden k) then
    m' ←! refreshBrowse fs (set_showHidden (negb (showHidden m)) m);
    finish msg m' fs
  else if key.Matches msg (Enter k) then
    item ←! asFileItem (blist.SelectedItem (browse m));
    if isDir item then
      m' ←! refreshBrowse fs (set_cwd (path item) m);
      finish msg m' fs
    else Ok (m, fs, CmdExecProcess (editor m) (path item))
  else if key.Matches msg (Mark k) then
    item ←! asFileItem (blist.SelectedItem (browse m));
    if negb (isParent item) then
      let m1 :=
        set_marked
          (<[path item := negb (isMarked m (path item))]> (marked m)) m in
      m' ←! refreshBrowse fs m1;
      finish msg m' fs
    else finish msg m fs
  else if key.Matches msg (Yank k) then
    let m1 := set_clipboard (keysOf (marked m)) m in
    let m2 := set_clipMode ClipCopy m1 in
    let m3 := set_marked ∅ m2 in
    m' ←! refreshBrowse fs m3;
    finish msg m' fs
  else if key.Matches msg (Cut k) then
    let m1 := set_clipboard (keysOf (marked m)) m in
    let m2 := set_clipMode ClipCut m1 in
    let m3 := set_marked ∅ m2 in
    m' ←! refreshBrowse fs m3;
    finish msg m' fs
  else if key.Matches msg (Paste k) then
    let fs' := pasteAll m fs in
    let m1 := set_clipboard [] m in
    let m2 := set_clipMode ClipNone m1 in
    m' ←! refreshBrowse fs' m2;
    finish msg m' fs'
  else if key.Matches msg (New k) then
    let m1 := set_mode ModeInput m in
    let m2 :=
      set_input (textinput.SetValue textinput_sanitize "" (input m1)) m1 in
    finish msg (set_inputTarget "create" m2) fs
  else if key.Matches msg (Rename k) then
    item ←! asFileItem (blist.SelectedItem (browse m));
    if negb (isParent item) then
      let m1 := set_mode ModeInput m in
      let m2 :=
        set_input
          (textinput.SetValue textinput_sanitize (name item) (input m1)) m1 in
      finish msg (set_inputTarget "rename" m2) fs
    else finish msg m fs
  else if key.Matches msg (Delete k) then
    item ←! asFileItem (blist.SelectedItem (browse m));
    if negb (isParent item) then
      let fs' := (os.RemoveAll (path item) fs).1 in
      let m1 := set_marked (delete (path item) (marked m)) m in
      m' ←! refreshBrowse fs' m1;
      finish msg m' fs'
    else finish msg m fs
  else if key.Matches msg (View k) then
    item ←! asFileItem (blist.SelectedItem (browse m));
    if negb (isParent item) && negb (isDir item) then
      let data := (os.ReadFile (path item) fs).1 in
      let m1 := set_view (viewport.SetContent (of_bytes data) (view m)) m in
      finish msg (set_mode ModeView m1) fs
    else finish msg m fs
  else if key.Matches msg (Mount k) then
    finish msg (set_mode ModeMounts (refreshMounts fs m)) fs
  else finish msg m fs.

Definition updateMounts (msg : Msg) (m : model) (fs : filesys)
  : result (model * filesys * Cmd) :=
  let k := keys m in
  if key.Matches msg (Back k) then finish msg (set_mode ModeBrowse m) fs
  else if key.Matches msg (Enter k) then
    item ←! asMountItem (blist.SelectedItem (mounts m));
    if decide (mount item = "") then
      let fs' := udisksctl "mount" (dev item) fs in
      finish msg (refreshMounts fs' m) fs'
    else
      dir ←! asDir (mount item);
      m' ←! refreshBrowse fs (set_cwd dir m);
      finish msg (set_mode ModeBrowse m') fs
  else if key.Matches msg (Back k) then
    item ←! asMountItem (blist.SelectedItem (mounts m));
    if decide (mount item ≠ "") then
      let fs' := udisksctl "unmount" (dev item) fs in
      finish msg (refreshMounts fs' m) fs'
    else finish msg m fs
  else finish msg m fs.

Definition updateInput (msg : Msg) (m : model) (fs : filesys)
  : result (model * filesys * Cmd) :=
  let k := keys m in
  r ←! (if key.Matches msg (Back k) then Ok (set_mode ModeBrowse m, fs)
        else if key.Matches msg ["enter"] then handleInput fs m
        else Ok (m, fs));
  let '(i, cmd) := textinput_Update msg (input r.1) in
  Ok (set_input i r.1, r.2, cmd).

Definition updateView (msg : Msg) (m : model) (fs : filesys)
  : result (model * filesys * Cmd) :=
  let k := keys m in
  let m1 :=
    if key.Matches msg (Back k) || key.Matches msg (Quit k)
    then set_mode ModeBrowse m else m in
  let '(v, cmd) := viewport_Update msg (view m1) in
  Ok (set_view v m1, fs, cmd).

Definition Update (msg : Msg) (m : model) (fs : filesys)
  : result (model * filesys * Cmd) :=
  match msg with
  | WindowSizeMsg w h =>
      let m1 := set_browse (blist.SetSize w (h - 3) (browse m)) m in
      let m2 := set_mounts (blist.SetSize w (h - 3) (mounts m1)) m1 in
      let m3 := set_view (viewport.SetSizes w (h - 1) (view m2)) m2 in
      finish msg m3 fs
  | KeyMsg _ =>
      match mode m with
      | ModeBrowse => updateBrowse msg m fs
      | ModeMounts => updateMounts msg m fs
      | ModeInput => updateInput msg m fs
      | ModeView => updateView msg m fs
      end
  end.

End Dispatcher.

(** *** [initialModel] *)

Definition initialModel (wd : pathname) (editorEnv : string) (fs : filesys)
  : result model :=
  let b := blist.SetTitle "bobafm" blist.New in
  let ti := {| textinput.Value := "" |} in
  let vp := {| viewport.content := ""; viewport.Width := 0;
               viewport.Height := 0 |} in
  let editor := if decide (editorEnv = "") then "vi" else editorEnv in
  refreshBrowse fs
    {| mode := ModeBrowse; cwd := wd; showHidden := false; browse := b;
       mounts := blist.New; input := ti; view := vp; marked := ∅;
       clipboard := []; clipMode := ClipNone; editor := editor;
       inputTarget := ""; keys := newKeyMap |}.

(** ** Vocabulary of the statements *)


(** The rest of [q] after the prefix [p]. *)
Fixpoint after (p q : pathname) : option pathname :=
  match p, q with
  | [], _ => Some q
  | c :: p', c' :: q' => if decide (c = c') then after p' q' else None
  | _ :: _, [] => None
  end.

(** A file name: not empty, not ["."] or [".."], without separator. *)
Definition validName (x : string) : bool :=
  bool_decide (x ≠ "" ∧ x ≠ "." ∧ x ≠ ".." ∧ "/"%char ∉ to_bytes x).

Definition validPath (p : pathname) : bool := forallb validName p.

(** Does the name begin with a dot? *)
Definition dotName (s : string) : bool :=
  match s with
  | String c _ => Ascii.eqb c "."
  | EmptyString => false
  end.

(** The entries a listing shows. *)
Definition shown (sh : bool) (e : os.DirEntry) : Prop :=
  sh = true ∨ dotName (os.Name e) = false.

Global Instance shown_dec sh e : Decision (shown sh e).
Proof. unfold shown. apply _. Defined.

(** The parent link of a directory: absent at the root. *)
Definition parentLink (dir : pathname) : list Item :=
  if decide (filepath.Dir dir ≠ dir)
  then [FileRow (parentItem (filepath.Dir dir))] else [].

Definition rows (dir : pathname) (es : list os.DirEntry) : list Item :=
  (λ e, FileRow (entryItem dir e)) <$> es.

(** [Title()] of a row. *)
Definition Title (i : Item) : string :=
  match i with
  | FileRow f => name f
  | MountRow d => dev d
  end.

Definition isParentRow (i : Item) : bool :=
  match i with
  | FileRow f => isParent f
  | MountRow _ => false
  end.

(** The rows that stay when hidden files are not shown. *)
Definition keptRow (i : Item) : Prop :=
  isParentRow i = true ∨ dotName (Title i) = false.

Global Instance keptRow_dec i : Decision (keptRow i).
Proof. unfold keptRow. apply _. Defined.

(** What a handler returned, when it returned. *)
Definition modelOf {A B} (r : result (model * A * B)) : option model :=
  match r with
  | Ok (m, _, _) => Some m
  | _ => None
  end.

Definition fsOf {A} (r : result (model * filesys * A)) : option filesys :=
  match r with
  | Ok (_, fs, _) => Some fs
  | _ => None
  end.

(** A sequence of key presses. *)
Definition press `{Toolkit} (ks : list string) (m : model) (fs : filesys)
  : result (model * filesys * Cmd) :=
  foldR (λ s k, Update (KeyMsg k) s.1.1 s.1.2) ks (m, fs, CmdNil).

(** ** A small world for the examples *)

(** Widgets that ignore every event, a text input that keeps what it is
    given, one volume and no block devices. *)
Definition plainToolkit : Toolkit :=
  {| list_Update := λ _ l, (l, CmdNil);
     textinput_Update := λ _ t, (t, CmdNil);
     viewport_Update := λ _ v, (v, CmdNil);
     textinput_sanitize := λ s, s;
     volume := λ _ _, 0;
     lsblk := λ _, [];
     udisksctl := λ _ _ fs, fs |}.

Definition home : pathname := ["home"; "u"].

(** The same, with the directory [d] of [home] the mount point of a second
    volume. *)
Definition stickToolkit : Toolkit :=
  {| list_Update := λ _ l, (l, CmdNil);
     textinput_Update := λ _ t, (t, CmdNil);
     viewport_Update := λ _ v, (v, CmdNil);
     textinput_sanitize := λ s, s;
     volume := λ _ p, if bool_decide ((home ++ ["d"]) `prefix_of` p)
                      then 1 else 0;
     lsblk := λ _, [["/dev/sdb1"; "/home/u/d"]];
     udisksctl := λ _ _ fs, fs |}.

Definition demoFS : filesys :=
  Dir [("home",
        Dir [("u",
              Dir [("a.txt", File (to_bytes "alpha"));
                   ("b.txt", File (to_bytes "beta"));
                   ("d", Dir []);
                   (".cfg", File []);
                   ("box", Dir [("c.txt", File (to_bytes "gamma"))])])])].

Definition blankModel (dir : pathname) : model :=
  {| mode := ModeBrowse; cwd := dir; showHidden := false;
     browse := blist.SetTitle "bobafm" blist.New; mounts := blist.New;
     input := {| textinput.Value := "" |};
     view := {| viewport.content := ""; viewport.Width := 0;
                viewport.Height := 0 |};
     marked := ∅; clipboard := []; clipMode := ClipNone; editor := "vi";
     inputTarget := ""; keys := newKeyMap |}.

(** The model showing [dir], the cursor on row [i]. *)
Definition opened (dir : pathname) (i : nat) (fs : filesys) : model :=
  let m := match refreshBrowse fs (blankModel dir) with
           | Ok m' => m'
           | _ => blankModel dir
           end in
  set_browse
    {| blist.items := blist.items (browse m); blist.index := i;
       blist.Title := blist.Title (browse m);
       blist.width := 0; blist.height := 0 |} m.

(** The model in [Input] mode with a given target and buffer. *)
Definition typing (target buffer : string) (m : model) : model :=
  set_input {| textinput.Value := buffer |}
    (set_inputTarget target (set_mode ModeInput m)).

(** The model holding a clipboard. *)
Definition holding (l : list pathname) (c : ClipboardMode) (m : model)
  : model :=
  set_clipMode c (set_clipboard l m).

(** The catalog as the specification words it: the parent link unless at
    the root, then the shown directories, then the shown files, each group
    in the order of the listing. *)
Definition catalog (dir : pathname) (sh : bool) (es : list os.DirEntry)
  : list Item :=
  parentLink dir
  ++ rows dir (filter (λ e, os.IsDir e = true) (filter (shown sh) es))
  ++ rows dir (filter (λ e, os.IsDir e = false) (filter (shown sh) es)).

(** The file system a commit left. *)
Definition committed (r : result (model * filesys)) : option filesys :=
  match r with
  | Ok (_, fs) => Some fs
  | _ => None
  end.

(** A snapshot path [s] next to the source [src]: well formed and pasted
    under another name. *)
Definition apart (src s : pathname) : Prop :=
  validPath s = true ∧ filepath.Base s ≠ filepath.Base src.

(** A snapshot path [s] that a move of [src] is clear of: [s] does not
    lie above [src]. *)
Definition clear (src s : pathname) : Prop := ¬ s `prefix_of` src.

(** Every path above [src] is a directory. *)
Definition above (src : pathname) (fs : filesys) : Prop :=
  ∀ q, q `prefix_of` src → q ≠ src → os.stat q fs = Some KDir.

Global Instance apart_dec src s : Decision (apart src s).
Proof. unfold apart. apply _. Defined.

Global Instance clear_dec src s : Decision (clear src s).
Proof. unfold clear. apply _. Defined.

(** [m'] is [m] up to the state of the two list widgets. *)
Definition widgetsOnly (m m' : model) : Prop :=
  ∃ b mo, m' = set_mounts mo (set_browse b m).

(** The clipboard is well formed: no path twice, and no snapshot without a
    clipboard mode. *)
Definition clipOk (m : model) : Prop :=
  NoDup (clipboard m) ∧ (clipMode m = ClipNone → clipboard m = []).

(** The keys of [newKeyMap] that can change the file system, by mode. *)
Definition mutating (md : Mode) (k : string) : bool :=
  match md with
  | ModeBrowse => bool_decide (k = "p" ∨ k = "d")
  | ModeMounts => bool_decide (k = "enter")
  | ModeInput => bool_decide (k = "enter")
  | ModeView => false
  end.

(** The model showing the mount menu with the given rows. *)
Definition onMounts (rows : list mountItem) (m : model) : model :=
  set_mode ModeMounts
    (set_mounts (blist.SetItems (MountRow <$> rows) (mounts m)) m).

(** What an event can do to the clipboard: leave it, take a snapshot of the
    keys of the marks, or empty it. *)
Definition clipStep (m m' : model) : Prop :=
  (clipboard m' = clipboard m ∧ clipMode m' = clipMode m)
  ∨ (clipboard m' = keysOf (marked m) ∧ clipMode m' ≠ ClipNone)
  ∨ clipboard m' = [].

(** * Properties *)

Module TrimFacts.
Import strings.


Lemma of_to_bytes s : of_bytes (to_bytes s) = s.
Proof. apply string_of_list_ascii_of_string. Qed.






















End TrimFacts.

Module FsFacts.
Import os.

Lemma after_Some p q r : after p q = Some r ↔ q = p ++ r.
Proof.
  revert q. induction p as [|c p IH]; intros q; simpl.
  - split; congruence.
  - destruct q as [|c' q]; [split; discriminate|].
    case_decide; subst.
    + rewrite IH. split; congruence.
    + split; congruence.
Qed.

Lemma after_None p q : after p q = None ↔ ¬ p `prefix_of` q.
Proof.
  split.
  - intros Hn [r ->]. by rewrite (proj2 (after_Some p (p ++ r) r)) in Hn.
  - intros Hn. destruct (after p q) as [r|] eqn:E; [|done].
    apply after_Some in E. destruct Hn. by exists r.
Qed.

Lemma after_app p r : after p (p ++ r) = Some r.
Proof. by apply after_Some. Qed.

Lemma after_refl p : after p p = Some [].
Proof. apply after_Some. by rewrite app_nil_r. Qed.

Lemma child_setChild c c' x cs :
  child c' (setChild c x cs) = if decide (c' = c) then Some x else child c' cs.
Proof.
  induction cs as [|[d n] cs IH]; simpl.
  - repeat case_decide; congruence.
  - repeat (case_decide; simpl; subst); try congruence.
Qed.

Lemma child_delChild c c' cs :
  child c' (delChild c cs) = if decide (c' = c) then None else child c' cs.
Proof.
  induction cs as [|[d n] cs IH]; simpl.
  - by case_decide.
  - repeat (case_decide; simpl; subst); try congruence.
Qed.

Lemma find_app p r n : find (p ++ r) n = find p n ≫= find r.
Proof.
  revert n. induction p as [|c p IH]; intros n; simpl; [done|].
  destruct n as [b|cs]; [done|]. destruct (child c cs); [apply IH | done].
Qed.

Lemma stat_nil n : stat [] n = Some (match n with File b => KFile b | Dir _ => KDir end).
Proof. by destruct n. Qed.

Lemma stat_cons c q n :
  stat (c :: q) n =
    match n with
    | File _ => None
    | Dir cs => child c cs ≫= stat q
    end.
Proof.
  unfold stat. simpl. destruct n as [b|cs]; [done|].
  by destruct (child c cs).
Qed.

Lemma stat_find_app p r n x :
  find p n = Some x → stat (p ++ r) n = stat r x.
Proof. intros Hp. unfold stat. by rewrite find_app, Hp. Qed.

(** Nothing lies below a path that is not a directory. *)
Lemma stat_below p r n :
  r ≠ [] → stat p n ≠ Some KDir → stat (p ++ r) n = None.
Proof.
  intros Hr Hp. unfold stat in *. rewrite find_app.
  destruct (find p n) as [[b|cs]|]; simpl; [|done|done].
  by destruct r.
Qed.

Lemma stat_prefix_dir p r n :
  r ≠ [] → is_Some (stat (p ++ r) n) → stat p n = Some KDir.
Proof.
  intros Hr Hs. destruct (decide (stat p n = Some KDir)) as [|Hn]; [done|].
  rewrite (stat_below p r n Hr Hn) in Hs. by destruct Hs.
Qed.

Lemma stat_put p x n n' q :
  put p x n = Some n' →
  stat q n' = match after p q with
              | Some r => stat r x
              | None => stat q n
              end.
Proof.
  revert n n' q. induction p as [|c p IH]; intros n n' q Hput; simpl in *.
  - by simplify_eq.
  - destruct n as [b|cs]; [done|].
    destruct q as [|c' q].
    + destruct p; [by simplify_eq|].
      repeat case_match; by simplify_eq.
    + rewrite (stat_cons c' q (Dir cs)).
      destruct p as [|c2 p].
      * simplify_eq. rewrite stat_cons, child_setChild.
        repeat case_decide; subst; try congruence. done.
      * destruct (child c cs) as [ch|] eqn:Hch; [|done].
        destruct (put (c2 :: p) x ch) as [ch'|] eqn:Hp; [|done].
        simplify_eq. rewrite stat_cons, child_setChild.
        repeat case_decide; subst; try congruence; simpl.
        rewrite Hch. simpl. by apply IH.
Qed.

Lemma stat_remove p n n' q :
  remove p n = Some n' →
  stat q n' = if isPrefix p q then None else stat q n.
Proof.
  unfold isPrefix.
  revert n n' q. induction p as [|c p IH]; intros n n' q Hrm; simpl in *.
  - done.
  - destruct n as [b|cs]; [done|].
    destruct (child c cs) as [ch|] eqn:Hch; [|done].
    destruct q as [|c' q].
    + rewrite bool_decide_eq_false_2 by (by intros ?%prefix_nil_inv).
      destruct p; [by simplify_eq|].
      repeat case_match; by simplify_eq.
    + rewrite (stat_cons c' q (Dir cs)).
      destruct p as [|c2 p].
      * simplify_eq. rewrite stat_cons, child_delChild.
        case_decide as Hc; subst.
        -- rewrite bool_decide_eq_true_2; [done|].
           apply prefix_cons, prefix_nil.
        -- rewrite bool_decide_eq_false_2; [done|].
           intros Hp. apply prefix_cons_inv_1 in Hp. congruence.
      * destruct (remove (c2 :: p) ch) as [ch'|] eqn:Hp; [|done].
        simplify_eq. rewrite stat_cons, child_setChild.
        case_decide as Hc; subst; simpl.
        -- rewrite Hch. simpl. rewrite (IH _ _ q Hp).
           destruct (decide (c2 :: p `prefix_of` q)) as [Hq|Hq].
           ++ rewrite !bool_decide_eq_true_2; auto using prefix_cons.
           ++ rewrite !bool_decide_eq_false_2; auto.
              by intros ?%prefix_cons_inv_2.
        -- rewrite bool_decide_eq_false_2; [done|].
           intros Hq. apply prefix_cons_inv_1 in Hq. congruence.
Qed.

Lemma stat_mkdirAll p n n' q :
  mkdirAll p n = Some n' →
  stat q n' = if isPrefix q p then Some KDir else stat q n.
Proof.
  unfold isPrefix.
  revert n n' q. induction p as [|c p IH]; intros n n' q Hmk.
  - destruct n as [b|cs]; simpl in Hmk; simplify_eq.
    case_bool_decide as Hq; [|done].
    apply prefix_nil_inv in Hq. by subst.
  - destruct n as [b|cs]; simpl in Hmk; [done|].
    destruct (mkdirAll p (default (Dir []) (child c cs))) as [ch'|] eqn:Hp;
      simplify_eq.
    destruct q as [|c' q].
    + by rewrite bool_decide_eq_true_2 by apply prefix_nil.
    + rewrite !stat_cons, child_setChild.
      case_decide as Hc; subst; simpl.
      * rewrite (IH _ _ q Hp).
        destruct (decide (q `prefix_of` p)) as [Hq|Hq].
        -- rewrite !bool_decide_eq_true_2; auto using prefix_cons.
        -- rewrite !bool_decide_eq_false_2; auto;
             [|by intros ?%prefix_cons_inv_2].
           destruct (child c cs) as [ch|]; simpl; [done|].
           destruct q as [|c2 q]; [by destruct Hq; apply prefix_nil|].
           by rewrite stat_cons.
      * rewrite bool_decide_eq_false_2; [done|].
        intros Hq. apply prefix_cons_inv_1 in Hq. congruence.
Qed.

Lemma mkdirAll_blocked p n :
  mkdirAll p n = None ↔
  ∃ q b, q `prefix_of` p ∧ stat q n = Some (KFile b).
Proof.
  revert n. induction p as [|c p IH]; intros n.
  - destruct n as [b|cs]; simpl.
    + split; [|done]. intros _. exists [], b. by split.
    + split; [done|]. intros (q & b & Hq & Hs).
      apply prefix_nil_inv in Hq. by subst.
  - destruct n as [b|cs]; simpl.
    + split; [|done]. intros _. exists [], b. split; [apply prefix_nil|done].
    + destruct (mkdirAll p (default (Dir []) (child c cs))) as [ch'|] eqn:Hp.
      * split; [done|]. intros (q & b & Hq & Hs).
        destruct q as [|c' q]; [done|].
        pose proof (prefix_cons_inv_1 _ _ _ _ Hq) as ->.
        apply prefix_cons_inv_2 in Hq. rewrite stat_cons in Hs.
        assert (mkdirAll p (default (Dir []) (child c cs)) = None) as Hn;
          [|congruence].
        apply IH. exists q, b. split; [done|].
        by destruct (child c cs).
      * split; [|done]. intros _.
        apply IH in Hp as (q & b & Hq & Hs).
        exists (c :: q), b. split; [by apply prefix_cons|].
        rewrite stat_cons. destruct (child c cs) as [ch|]; simpl; [done|].
        destruct q; [done | by rewrite stat_cons in Hs].
Qed.

Lemma put_snoc_is_Some dir c x n :
  stat dir n = Some KDir → is_Some (put (dir ++ [c]) x n).
Proof.
  revert n. induction dir as [|d dir IH]; intros n Hd; simpl.
  - destruct n; [done | eauto].
  - rewrite stat_cons in Hd. destruct n as [b|cs]; [done|].
    destruct (child d cs) as [ch|]; [|done]. simpl in Hd.
    destruct (IH ch Hd) as [ch' Hch'].
    destruct (dir ++ [c]) eqn:E; [by destruct dir|].
    rewrite Hch'. eauto.
Qed.

Lemma remove_is_Some p n :
  p ≠ [] → is_Some (stat p n) → is_Some (remove p n).
Proof.
  revert n. induction p as [|c p IH]; intros n Hp Hs; [done|].
  rewrite stat_cons in Hs. simpl.
  destruct n as [b|cs]; [by destruct Hs|].
  destruct (child c cs) as [ch|]; [|by destruct Hs]. simpl in Hs.
  destruct p as [|c2 p]; [eauto|].
  destruct (IH ch) as [ch' ->]; [done|done|eauto].
Qed.

Lemma stat_is_Some_find p n : is_Some (stat p n) ↔ is_Some (find p n).
Proof.
  unfold stat. destruct (find p n) as [[b|cs]|]; split; intros [? ?]; eauto;
    done.
Qed.
End FsFacts.

Module OsFacts.
Import os FsFacts.

Lemma prefix_snoc_inv (p dir : pathname) c :
  p `prefix_of` dir ++ [c] → p = dir ++ [c] ∨ p `prefix_of` dir.
Proof.
  intros [k Hk]. destruct (decide (k = [])) as [->|Hne].
  - left. by rewrite app_nil_r in Hk.
  - right. destruct (exists_last Hne) as (k' & c' & ->).
    rewrite app_assoc in Hk. apply app_inj_tail in Hk as [-> _].
    by exists k'.
Qed.

Lemma snoc_not_prefix (dir : pathname) c : ¬ dir ++ [c] `prefix_of` dir.
Proof.
  intros Hp%prefix_length. rewrite length_app in Hp. simpl in Hp. lia.
Qed.

(** Writing a regular file touches that one path. *)
Lemma stat_put_file d c n n' q :
  put d (File c) n = Some n' → stat d n ≠ Some KDir →
  stat q n' = if decide (q = d) then Some (KFile c) else stat q n.
Proof.
  intros Hput Hd. rewrite (stat_put _ _ _ _ q Hput).
  destruct (after d q) as [r|] eqn:E.
  - apply after_Some in E as ->. destruct r as [|c2 r].
    + rewrite app_nil_r. by rewrite decide_True.
    + rewrite decide_False.
      * by rewrite stat_cons, stat_below.
      * intros Heq. rewrite <- (app_nil_r d) in Heq at 2.
        by apply app_inv_head in Heq.
  - rewrite decide_False; [done|]. intros ->. by rewrite after_refl in E.
Qed.

Lemma stat_put_file_eq d c n n' :
  put d (File c) n = Some n' → stat d n ≠ Some KDir →
  stat d n' = Some (KFile c).
Proof.
  intros Hp Hd. by rewrite (stat_put_file _ _ _ _ d Hp Hd), decide_True.
Qed.

Lemma stat_put_file_ne d c n n' q :
  put d (File c) n = Some n' → stat d n ≠ Some KDir → q ≠ d →
  stat q n' = stat q n.
Proof.
  intros Hp Hd Hq. by rewrite (stat_put_file _ _ _ _ q Hp Hd), decide_False.
Qed.

(** A copy changes nothing but its destination. *)
Lemma copyFile_frame src dst fs q :
  q ≠ dst → stat q (copyFile src dst fs) = stat q fs.
Proof.
  intros Hq. unfold copyFile, Create, io.Copy.
  destruct (stat dst fs) as [[b0|]|] eqn:Hd; simpl; [|done|].
  all: destruct (put dst (File []) fs) as [fs1|] eqn:Hp1; simpl; [|done].
  all: assert (stat dst fs ≠ Some KDir) as Hnd by congruence.
  all: pose proof (stat_put_file_eq _ _ _ _ Hp1 Hnd) as Hd1.
  all: destruct (Open src fs).1 as [s|]; simpl;
    [|by apply (stat_put_file_ne _ _ _ _ q Hp1)].
  all: destruct (stat s fs1) as [[b|]|]; simpl;
    try by apply (stat_put_file_ne _ _ _ _ q Hp1).
  all: destruct (put dst (File b) fs1) as [fs2|] eqn:Hp2; simpl;
    try by apply (stat_put_file_ne _ _ _ _ q Hp1).
  all: rewrite (stat_put_file_ne _ _ _ _ q Hp2) by congruence.
  all: by apply (stat_put_file_ne _ _ _ _ q Hp1).
Qed.

(** Copying onto a directory does nothing. *)
Lemma copyFile_onto_dir src dst fs :
  stat dst fs = Some KDir → copyFile src dst fs = fs.
Proof. intros Hd. unfold copyFile, Create. by rewrite Hd. Qed.

(** A regular file copied into an existing directory. *)
Lemma copyFile_copies src dir c fs b :
  stat src fs = Some (KFile b) → stat dir fs = Some KDir →
  stat (dir ++ [c]) fs ≠ Some KDir → src ≠ dir ++ [c] →
  stat (dir ++ [c]) (copyFile src (dir ++ [c]) fs) = Some (KFile b).
Proof.
  intros Hs Hdir Hd Hne.
  destruct (put_snoc_is_Some dir c (File []) fs Hdir) as [fs1 Hp1].
  assert (stat src fs1 = Some (KFile b)) as Hs1.
  { by rewrite (stat_put_file_ne _ _ _ _ src Hp1). }
  assert (stat dir fs1 = Some KDir) as Hdir1.
  { rewrite (stat_put_file_ne _ _ _ _ dir Hp1); [done|done|].
    intros Heq. apply (f_equal length) in Heq.
    rewrite length_app in Heq. simpl in Heq. lia. }
  destruct (put_snoc_is_Some dir c (File b) fs1 Hdir1) as [fs2 Hp2].
  assert (stat (dir ++ [c]) fs2 = Some (KFile b)) as Hd2.
  { apply (stat_put_file_eq _ _ _ _ Hp2).
    by rewrite (stat_put_file_eq _ _ _ _ Hp1 Hd). }
  unfold copyFile, Create, io.Copy, Open. rewrite Hs. simpl.
  destruct (stat (dir ++ [c]) fs) as [[?|]|] eqn:E; [|done|];
    rewrite Hp1; simpl; rewrite Hs1, Hp2; done.
Qed.

(** [os.Rename] either changes nothing or moves the subtree. *)
Lemma replaceable_dir x target :
  replaceable x target = None →
  match target with Some (Dir _) => False | _ => True end.
Proof. by destruct target as [[?|?]|], x. Qed.

Lemma Rename_cases vol old new fs :
  (Rename vol old new fs).1 = fs
  ∨ (is_Some (stat old fs) ∧ old ≠ new ∧ old ≠ [] ∧ new ≠ []
     ∧ ¬ old `prefix_of` new ∧ stat new fs ≠ Some KDir
     ∧ ∀ q, stat q (Rename vol old new fs).1 =
              match after new q with
              | Some r => stat (old ++ r) fs
              | None => if isPrefix old q then None else stat q fs
              end).
Proof.
  unfold Rename.
  destruct (find old fs) as [x|] eqn:Hx; [|by left].
  destruct (replaceable x (find new fs)) eqn:Hrep; [by left|].
  case_decide as Hne; [by left|].
  case_decide as Hvol; [by left|].
  case_decide as Hroot; [by left|].
  destruct (isPrefix old new) eqn:Hpre; [by left|].
  destruct (remove old fs) as [fs1|] eqn:Hrm; [|by left].
  destruct (put new x fs1) as [fs2|] eqn:Hput; [|by left].
  right. simpl. split_and!; try tauto.
  - apply stat_is_Some_find. eauto.
  - by apply bool_decide_eq_false in Hpre.
  - apply replaceable_dir in Hrep. unfold stat.
    by destruct (find new fs) as [[?|?]|].
  - intros q. rewrite (stat_put _ _ _ _ q Hput).
    destruct (after new q) as [r|].
    + symmetry. by apply stat_find_app.
    + by apply stat_remove.
Qed.

(** A regular file moved to a free name in an existing directory. *)
Lemma Rename_moves_file vol old dir c fs b :
  stat old fs = Some (KFile b) → stat dir fs = Some KDir →
  stat (dir ++ [c]) fs = None → vol old = vol (dir ++ [c]) →
  ∀ q, stat q (Rename vol old (dir ++ [c]) fs).1 =
         if decide (q = old) then None
         else if decide (q = dir ++ [c]) then Some (KFile b)
         else stat q fs.
Proof.
  intros Ho Hdir Hnew Hvol.
  assert (old ≠ dir ++ [c]) as Hne by congruence.
  assert (old ≠ []) as Hold.
  { intros ->. destruct fs as [?|cs]; [|done].
    destruct dir; [done|]. by rewrite stat_cons in Hdir. }
  assert (¬ old `prefix_of` dir) as Hnp.
  { intros [k ->]. destruct k as [|c2 k].
    - rewrite app_nil_r in Hdir. congruence.
    - rewrite stat_below in Hdir; [done|done|congruence]. }
  assert (¬ old `prefix_of` dir ++ [c]) as Hnp'.
  { intros [?|?]%prefix_snoc_inv; done. }
  unfold Rename.
  destruct (find old fs) as [x|] eqn:Hx;
    [|by unfold stat in Ho; rewrite Hx in Ho].
  assert (x = File b) as ->.
  { unfold stat in Ho. rewrite Hx in Ho. by destruct x; simplify_eq. }
  assert (find (dir ++ [c]) fs = None) as ->.
  { unfold stat in Hnew. by destruct (find (dir ++ [c]) fs) as [[?|?]|]. }
  simpl.
  rewrite decide_False by done.
  rewrite decide_False by (by intros ?).
  rewrite decide_False by (intros [?|?]; [done | by destruct dir]).
  unfold isPrefix at 1. rewrite bool_decide_eq_false_2 by done.
  destruct (remove_is_Some old fs Hold) as [fs1 Hrm]; [by rewrite Ho|].
  rewrite Hrm.
  assert (stat dir fs1 = Some KDir) as Hdir1.
  { rewrite (stat_remove _ _ _ dir Hrm). unfold isPrefix.
    by rewrite bool_decide_eq_false_2. }
  destruct (put_snoc_is_Some dir c (File b) fs1 Hdir1) as [fs2 Hput].
  rewrite Hput. simpl. intros q.
  assert (stat (dir ++ [c]) fs1 ≠ Some KDir) as Hnd.
  { rewrite (stat_remove _ _ _ _ Hrm). case_match; congruence. }
  rewrite (stat_put_file _ _ _ _ q Hput Hnd).
  rewrite (stat_remove _ _ _ q Hrm). unfold isPrefix.
  destruct (decide (q = old)) as [->|Hqo].
  - rewrite decide_False by done. by rewrite bool_decide_eq_true_2.
  - case_decide; [done|].
    case_bool_decide as Hp; [|done].
    destruct Hp as [k ->]. destruct k as [|c2 k].
    + by rewrite app_nil_r in Hqo.
    + symmetry. apply stat_below; [done | congruence].
Qed.
End OsFacts.

Module PathFacts.
Import filepath TrimFacts.

Lemma fields_no_sep cur l :
  "/"%char ∉ l → fields cur l = [reverse cur ++ l].
Proof.
  revert cur. induction l as [|c l IH]; intros cur Hl; simpl.
  - by rewrite app_nil_r.
  - apply not_elem_of_cons in Hl as [Hc Hl].
    destruct (Ascii.eqb_spec c "/") as [->|_]; [done|].
    rewrite IH by done. by rewrite reverse_cons, <- app_assoc.
Qed.

Lemma Join_name dir x : validName x = true → Join dir x = dir ++ [x].
Proof.
  intros Hx. apply bool_decide_eq_true in Hx as (H1 & H2 & H3 & H4).
  unfold Join, components. rewrite fields_no_sep by done.
  simpl. rewrite of_to_bytes. unfold cleanStep.
  rewrite decide_False by (intros [?|?]; done).
  by rewrite decide_False.
Qed.

Lemma Join_root dir : Join dir "/" = dir.
Proof. done. Qed.

Lemma Base_snoc dir x : Base (dir ++ [x]) = x.
Proof. apply last_last. Qed.

Lemma Base_valid s :
  validPath s = true → s ≠ [] → validName (Base s) = true.
Proof.
  unfold validPath, Base. intros Hs Hne.
  destruct (exists_last Hne) as (s' & x & ->).
  rewrite last_last. rewrite forallb_app in Hs.
  apply andb_true_iff in Hs as [_ Hs]. simpl in Hs.
  by apply andb_true_iff in Hs as [Hs _].
Qed.

(** Where a snapshot path is pasted. *)
Lemma destination dir s :
  validPath s = true →
  Join dir (Base s) = if decide (s = []) then dir else dir ++ [Base s].
Proof.
  intros Hs. case_decide as Hne; [by subst|].
  by apply Join_name, Base_valid.
Qed.
End PathFacts.

Module PasteFacts.
Import os filepath FsFacts OsFacts PathFacts.

Section OneSource.
Variables (vol : pathname → N) (m : model) (src : pathname) (b : bytes).
Local Abbreviation dst := (cwd m ++ [Base src]).

Hypothesis src_dst : src ≠ dst.

Lemma copy_other fs s :
  clipMode m = ClipCopy → apart src s →
  stat (cwd m) fs = Some KDir →
  stat (cwd m) (pasteStep vol m fs s) = Some KDir
  ∧ stat src (pasteStep vol m fs s) = stat src fs
  ∧ stat dst (pasteStep vol m fs s) = stat dst fs.
Proof.
  intros Hmode [Hv Hb] Hdir. unfold pasteStep.
  rewrite decide_True by done. rewrite (destination _ _ Hv).
  case_decide as Hs.
  - by rewrite copyFile_onto_dir.
  - rewrite !copyFile_frame; [done|..].
    + intros Heq. by apply app_inj_tail in Heq as [_ ?].
    + intros ->. by rewrite Base_snoc in Hb.
    + intros Heq. apply (f_equal length) in Heq.
      rewrite length_app in Heq. simpl in Heq. lia.
Qed.

Lemma copy_self fs :
  clipMode m = ClipCopy → validPath src = true →
  stat (cwd m) fs = Some KDir → stat src fs = Some (KFile b) →
  stat dst fs ≠ Some KDir →
  stat (cwd m) (pasteStep vol m fs src) = Some KDir
  ∧ stat src (pasteStep vol m fs src) = Some (KFile b)
  ∧ stat dst (pasteStep vol m fs src) = Some (KFile b).
Proof.
  intros Hmode Hv Hdir Hs Hd. unfold pasteStep.
  rewrite decide_True by done. rewrite (destination _ _ Hv).
  rewrite decide_False.
  2:{ intros ->. destruct fs; [|done]. destruct (cwd m); [done|].
      by rewrite stat_cons in Hdir. }
  split_and!.
  - rewrite copyFile_frame; [done|].
    intros Heq. apply (f_equal length) in Heq.
    rewrite length_app in Heq. simpl in Heq. lia.
  - by rewrite copyFile_frame.
  - by apply copyFile_copies.
Qed.

Lemma above_file fs : stat src fs = Some (KFile b) → above src fs.
Proof.
  intros Hs q [r ->] Hq. apply (stat_prefix_dir q r).
  - intros ->. by rewrite app_nil_r in Hq.
  - by rewrite Hs.
Qed.

(** The move of another snapshot path, none of them above [src]: a
    directory on the way to [src] cannot be replaced, so [src] stays what
    it is. *)
Lemma move_other fs s :
  clipMode m = ClipCut → apart src s → clear src s →
  stat (cwd m) fs = Some KDir → above src fs →
  stat (cwd m) (pasteStep vol m fs s) = Some KDir
  ∧ above src (pasteStep vol m fs s)
  ∧ stat src (pasteStep vol m fs s) = stat src fs
  ∧ stat dst (pasteStep vol m fs s) = stat dst fs.
Proof.
  intros Hmode [Hv Hb] HA Hdir Hab. unfold pasteStep, above.
  rewrite decide_False by congruence.
  rewrite (destination _ _ Hv) in *.
  destruct (Rename_cases vol s (if decide (s = []) then cwd m
                                else cwd m ++ [Base s]) fs)
    as [->|(Hs & Hne & Hs0 & _ & Hnp & Hnd & Hq)]; [done|].
  rewrite decide_False in * by done.
  assert (s ≠ dst) as Hsd.
  { intros ->. by rewrite Base_snoc in Hb. }
  assert (¬ s `prefix_of` cwd m) as Hsc.
  { intros Hp. apply Hnp. by apply prefix_app_r. }
  assert (∀ q, q `prefix_of` src → ¬ cwd m ++ [Base s] `prefix_of` q)
    as Hnew.
  { intros q Hqs Hnq. apply Hnd.
    destruct (decide (cwd m ++ [Base s] = src)) as [Heq|Hneq].
    - rewrite <- Heq in Hb. by rewrite Base_snoc in Hb.
    - apply Hab; [by etrans|done]. }
  split_and!.
  - rewrite Hq. rewrite (proj2 (after_None _ _)) by apply prefix_snoc_not.
    unfold isPrefix. by rewrite bool_decide_eq_false_2.
  - intros q Hqs Hqne. rewrite Hq.
    rewrite (proj2 (after_None _ _)) by by apply Hnew.
    unfold isPrefix. rewrite bool_decide_eq_false_2; [by apply Hab|].
    intros Hsq. apply HA. by etrans.
  - rewrite Hq. rewrite (proj2 (after_None _ _)) by by apply Hnew.
    unfold isPrefix. by rewrite bool_decide_eq_false_2.
  - rewrite Hq. rewrite (proj2 (after_None _ _)).
    2:{ intros [Heq|Hp]%prefix_snoc_inv.
        - by apply app_inj_tail in Heq as [_ ?].
        - by apply prefix_snoc_not in Hp. }
    unfold isPrefix. rewrite bool_decide_eq_false_2; [done|].
    intros [Heq|Hp]%prefix_snoc_inv; done.
Qed.

Lemma move_self fs :
  clipMode m = ClipCut → validPath src = true → vol src = vol dst →
  stat (cwd m) fs = Some KDir → stat src fs = Some (KFile b) →
  stat dst fs = None →
  stat (cwd m) (pasteStep vol m fs src) = Some KDir
  ∧ above src (pasteStep vol m fs src)
  ∧ stat src (pasteStep vol m fs src) = None
  ∧ stat dst (pasteStep vol m fs src) = Some (KFile b).
Proof.
  intros Hmode Hv Hvol Hdir Hs Hd. pose proof (above_file fs Hs) as Hab.
  unfold pasteStep, above.
  rewrite decide_False by congruence. rewrite (destination _ _ Hv).
  rewrite decide_False.
  2:{ intros ->. destruct fs; [|done]. destruct (cwd m); [done|].
      by rewrite stat_cons in Hdir. }
  split_and!.
  - rewrite (Rename_moves_file _ _ _ _ _ _ Hs Hdir Hd Hvol).
    rewrite decide_False by congruence.
    rewrite decide_False; [done|].
    intros Heq. apply (f_equal length) in Heq.
    rewrite length_app in Heq. simpl in Heq. lia.
  - intros q Hqs Hqne.
    rewrite (Rename_moves_file _ _ _ _ _ _ Hs Hdir Hd Hvol).
    rewrite decide_False by done.
    rewrite decide_False; [by apply Hab|].
    intros ->. rewrite Hab in Hd; done.
  - rewrite (Rename_moves_file _ _ _ _ _ _ Hs Hdir Hd Hvol).
    by rewrite decide_True.
  - rewrite (Rename_moves_file _ _ _ _ _ _ Hs Hdir Hd Hvol).
    rewrite decide_False by done. by rewrite decide_True.
Qed.

Lemma move_gone fs s :
  stat s fs = None → clipMode m = ClipCut → pasteStep vol m fs s = fs.
Proof.
  intros Hs Hmode. unfold pasteStep. rewrite decide_False by congruence.
  destruct (Rename_cases vol s (Join (cwd m) (Base s)) fs)
    as [->|(Hs' & _)]; [done|].
  rewrite Hs in Hs'. by destruct Hs'.
Qed.

(** The loop, after [src] has been copied. *)
Lemma copy_rest l fs :
  clipMode m = ClipCopy → validPath src = true →
  Forall (λ s, s ≠ src → apart src s) l →
  stat (cwd m) fs = Some KDir → stat src fs = Some (KFile b) →
  stat dst fs = Some (KFile b) →
  stat src (fold_left (pasteStep vol m) l fs) = Some (KFile b)
  ∧ stat dst (fold_left (pasteStep vol m) l fs) = Some (KFile b).
Proof.
  intros Hmode Hv Hl. revert fs.
  induction Hl as [|s l Hs Hl IH]; intros fs Hdir Hsrc Hdst; [done|].
  simpl. destruct (decide (s = src)) as [->|Hne].
  - destruct (copy_self fs Hmode Hv Hdir Hsrc) as (H1 & H2 & H3);
      [congruence|].
    by apply IH.
  - destruct (copy_other fs s Hmode (Hs Hne) Hdir) as (H1 & H2 & H3).
    apply IH; congruence.
Qed.

Lemma copy_loop l fs :
  clipMode m = ClipCopy → validPath src = true →
  Forall (λ s, s ≠ src → apart src s) l → src ∈ l →
  stat (cwd m) fs = Some KDir → stat src fs = Some (KFile b) →
  stat dst fs = None →
  stat src (fold_left (pasteStep vol m) l fs) = Some (KFile b)
  ∧ stat dst (fold_left (pasteStep vol m) l fs) = Some (KFile b).
Proof.
  intros Hmode Hv Hl. revert fs.
  induction Hl as [|s l Hs Hl IH]; intros fs Hin Hdir Hsrc Hdst.
  - by apply elem_of_nil in Hin.
  - simpl. destruct (decide (s = src)) as [->|Hne].
    + destruct (copy_self fs Hmode Hv Hdir Hsrc) as (H1 & H2 & H3);
      [congruence|].
      by apply copy_rest.
    + destruct (copy_other fs s Hmode (Hs Hne) Hdir) as (H1 & H2 & H3).
      apply elem_of_cons in Hin as [?|Hin]; [done|].
      apply IH; congruence.
Qed.

Lemma move_rest l fs :
  clipMode m = ClipCut →
  Forall (λ s, s ≠ src → apart src s ∧ clear src s) l →
  stat (cwd m) fs = Some KDir → above src fs → stat src fs = None →
  stat dst fs = Some (KFile b) →
  stat src (fold_left (pasteStep vol m) l fs) = None
  ∧ stat dst (fold_left (pasteStep vol m) l fs) = Some (KFile b).
Proof.
  intros Hmode Hl. revert fs.
  induction Hl as [|s l Hs Hl IH]; intros fs Hdir Hab Hsrc Hdst; [done|].
  simpl. destruct (decide (s = src)) as [->|Hne].
  - rewrite move_gone by done. by apply IH.
  - destruct (Hs Hne) as [Ha Hc].
    destruct (move_other fs s Hmode Ha Hc Hdir Hab) as (H1 & H2 & H3 & H4).
    apply IH; [done | done | congruence | congruence].
Qed.

Lemma move_loop l fs :
  clipMode m = ClipCut → validPath src = true → vol src = vol dst →
  Forall (λ s, s ≠ src → apart src s ∧ clear src s) l → src ∈ l →
  stat (cwd m) fs = Some KDir → stat src fs = Some (KFile b) →
  stat dst fs = None →
  stat src (fold_left (pasteStep vol m) l fs) = None
  ∧ stat dst (fold_left (pasteStep vol m) l fs) = Some (KFile b).
Proof.
  intros Hmode Hv Hvol Hl. revert fs.
  induction Hl as [|s l Hs Hl IH]; intros fs Hin Hdir Hsrc Hdst.
  - by apply elem_of_nil in Hin.
  - simpl. destruct (decide (s = src)) as [->|Hne].
    + destruct (move_self fs Hmode Hv Hvol Hdir Hsrc Hdst)
        as (H1 & H2 & H3 & H4).
      by apply move_rest.
    + destruct (Hs Hne) as [Ha Hc].
      destruct (move_other fs s Hmode Ha Hc Hdir (above_file fs Hsrc))
        as (H1 & H2 & H3 & H4).
      apply elem_of_cons in Hin as [?|Hin]; [done|].
      apply IH; congruence.
Qed.
End OneSource.
End PasteFacts.

Module RefreshFacts.
Import os filepath.

Lemma ReadDir_names fs p : Forall (λ e, Name e ≠ "") (ReadDir fs p).1.
Proof.
  unfold ReadDir. destruct (find p fs) as [[b|cs]|]; simpl; try constructor.
  rewrite merge_sort_Permutation. apply Forall_fmap, Forall_forall.
  intros [c n] Hin. by apply list_elem_of_filter in Hin as [? _].
Qed.

Lemma refreshStep_shown m acc e :
  Name e ≠ "" → shown (showHidden m) e →
  refreshStep m acc e =
    Ok (if IsDir e then (acc.1 ++ [FileRow (entryItem (cwd m) e)], acc.2)
        else (acc.1, acc.2 ++ [FileRow (entryItem (cwd m) e)])).
Proof.
  intros Hn Hs. unfold refreshStep, shown in *.
  destruct (showHidden m); simpl.
  - by destruct (IsDir e).
  - destruct Hs as [?|Hs]; [done|].
    destruct (Name e) as [|c s] eqn:E; [done|]. simpl in *. rewrite Hs.
    by destruct (IsDir e).
Qed.

Lemma refreshStep_hidden m acc e :
  Name e ≠ "" → ¬ shown (showHidden m) e → refreshStep m acc e = Ok acc.
Proof.
  intros Hn Hs. unfold refreshStep, shown in *.
  destruct (showHidden m); simpl; [by destruct Hs; left|].
  destruct (Name e) as [|c s] eqn:E; [done|]. simpl in *.
  destruct (Ascii.eqb c "."); [done|]. destruct Hs. by right.
Qed.

(** The loop of [refreshBrowse] is a stable partition of the shown
    entries. *)
Lemma refresh_loop m es acc :
  Forall (λ e, Name e ≠ "") es →
  foldR (refreshStep m) es acc =
    Ok (acc.1 ++ rows (cwd m)
                   (filter (λ e, IsDir e = true)
                      (filter (shown (showHidden m)) es)),
        acc.2 ++ rows (cwd m)
                   (filter (λ e, IsDir e = false)
                      (filter (shown (showHidden m)) es))).
Proof.
  intros Hes. revert acc.
  induction Hes as [|e es He Hes IH]; intros [ds fs]; simpl.
  - by rewrite !app_nil_r.
  - destruct (decide (shown (showHidden m) e)) as [Hs|Hs].
    + rewrite refreshStep_shown by done. simpl.
      rewrite (filter_cons_True (shown _)) by done.
      destruct (IsDir e) eqn:Hd; rewrite IH; simpl.
      * rewrite filter_cons_True by done.
        rewrite filter_cons_False by congruence.
        unfold rows. simpl. by rewrite <- app_assoc.
      * rewrite filter_cons_False by congruence.
        rewrite filter_cons_True by done.
        unfold rows. simpl. by rewrite <- app_assoc.
    + rewrite refreshStep_hidden by done. simpl.
      rewrite (filter_cons_False (shown _)) by done. apply IH.
Qed.

Lemma set_browse_id m : set_browse (browse m) m = m.
Proof. by destruct m. Qed.

Lemma refreshWith_ok es m :
  Forall (λ e, Name e ≠ "") es →
  refreshWith (es, None) m =
    Ok (set_browse
          (blist.SetItems
             (parentLink (cwd m)
              ++ rows (cwd m) (filter (λ e, IsDir e = true)
                                 (filter (shown (showHidden m)) es))
              ++ rows (cwd m) (filter (λ e, IsDir e = false)
                                 (filter (shown (showHidden m)) es)))
             (blist.SetTitle (browseTitle m) (browse m))) m).
Proof.
  intros Hes. unfold refreshWith. simpl.
  rewrite refresh_loop by done. simpl.
  unfold parentLink. by rewrite <- app_assoc.
Qed.

Lemma refreshWith_error es e m : refreshWith (es, Some e) m = Ok m.
Proof. done. Qed.

(** [refreshBrowse] never panics and writes the list widget only. *)
Lemma refreshBrowse_total fs m :
  ∃ b, refreshBrowse fs m = Ok (set_browse b m).
Proof.
  unfold refreshBrowse. pose proof (ReadDir_names fs (cwd m)) as Hn.
  destruct (ReadDir fs (cwd m)) as [es [e|]]; simpl in *.
  - exists (browse m). by rewrite set_browse_id.
  - rewrite refreshWith_ok by done. eauto.
Qed.

Lemma Dir_root p : Dir p ≠ p ↔ p ≠ [].
Proof.
  unfold Dir. split; [by intros Hp ->|]. intros Hp Heq.
  destruct (exists_last Hp) as (p' & c & ->).
  rewrite removelast_last in Heq. apply (f_equal length) in Heq.
  rewrite length_app in Heq. simpl in Heq. lia.
Qed.
(** What a refresh of a readable directory lists. *)
Lemma refreshBrowse_lists fs m :
  (ReadDir fs (cwd m)).2 = None →
  ∃ m', refreshBrowse fs m = Ok m'
        ∧ blist.items (browse m')
          = catalog (cwd m) (showHidden m) (ReadDir fs (cwd m)).1.
Proof.
  intros Hok. unfold refreshBrowse.
  pose proof (ReadDir_names fs (cwd m)) as Hn.
  destruct (ReadDir fs (cwd m)) as [es e]. simpl in *. subst e.
  rewrite refreshWith_ok by done.
  eexists. split; reflexivity.
Qed.
End RefreshFacts.

Module HiddenFacts.
Import os filepath RefreshFacts.

Lemma filter_shown_true (es : list DirEntry) : filter (shown true) es = es.
Proof.
  induction es as [|e es IH]; [done|].
  rewrite filter_cons_True by (by left). by rewrite IH.
Qed.

Lemma filter_kept_rows dir (es : list DirEntry) :
  filter keptRow (rows dir es) = rows dir (filter (shown false) es).
Proof.
  induction es as [|e es IH]; [done|].
  change (rows dir (e :: es)) with (FileRow (entryItem dir e) :: rows dir es).
  destruct (decide (shown false e)) as [Hs|Hs].
  - rewrite (filter_cons_True (shown false)) by done.
    rewrite filter_cons_True.
    + rewrite IH. done.
    + destruct Hs as [?|Hs]; [done|]. by right.
  - rewrite (filter_cons_False (shown false)) by done.
    rewrite filter_cons_False; [done|].
    intros [?|Hk]; [done|]. apply Hs. by right.
Qed.

Lemma filter_kept_parentLink dir :
  filter keptRow (parentLink dir) = parentLink dir.
Proof.
  unfold parentLink. case_decide; [|done].
  rewrite filter_cons_True; [done|]. by left.
Qed.

Lemma filter_swap (P Q : DirEntry → Prop)
    `{!∀ e, Decision (P e)} `{!∀ e, Decision (Q e)} (es : list DirEntry) :
  filter P (filter Q es) = filter Q (filter P es).
Proof.
  rewrite !list_filter_filter. apply list_filter_iff. tauto.
Qed.
End HiddenFacts.

Module CreateFacts.
Import os filepath FsFacts OsFacts RefreshFacts.

Lemma setChild_same c x cs : child c cs = Some x → setChild c x cs = cs.
Proof.
  induction cs as [|[d n] cs IH]; simpl; [done|].
  case_decide; intros Hc; simplify_eq; [done|]. by rewrite IH.
Qed.

Lemma mkdirAll_exists p n : stat p n = Some KDir → mkdirAll p n = Some n.
Proof.
  revert n. induction p as [|c p IH]; intros n Hp.
  - by destruct n.
  - rewrite stat_cons in Hp. destruct n as [b|cs]; [done|]. simpl.
    destruct (child c cs) as [ch|] eqn:Hch; [|done]. simpl in *.
    rewrite (IH ch Hp). by rewrite setChild_same.
Qed.

Lemma MkdirAll_stat p fs q :
  (∀ r b, r `prefix_of` p → stat r fs ≠ Some (KFile b)) →
  stat q (MkdirAll p fs).1 =
    if decide (q `prefix_of` p) then Some KDir else stat q fs.
Proof.
  intros Hfree. unfold MkdirAll.
  destruct (mkdirAll p fs) as [fs'|] eqn:Hmk; simpl.
  - rewrite (stat_mkdirAll _ _ _ q Hmk). unfold isPrefix.
    by destruct (decide (q `prefix_of` p));
      [rewrite bool_decide_eq_true_2 | rewrite bool_decide_eq_false_2].
  - apply mkdirAll_blocked in Hmk as (r & b & Hr & Hs).
    by destruct (Hfree r b Hr).
Qed.

(** [os.MkdirAll] leaves every regular file as it is. *)
Lemma MkdirAll_files p fs q b :
  stat q fs = Some (KFile b) → stat q (MkdirAll p fs).1 = Some (KFile b).
Proof.
  intros Hq. unfold MkdirAll.
  destruct (mkdirAll p fs) as [fs'|] eqn:Hmk; simpl; [|done].
  rewrite (stat_mkdirAll _ _ _ q Hmk). unfold isPrefix.
  case_bool_decide as Hp; [|done].
  assert (mkdirAll p fs = None) as Hn; [|congruence].
  apply mkdirAll_blocked. eauto.
Qed.

Lemma MkdirAll_exists p fs :
  stat p fs = Some KDir → (MkdirAll p fs).1 = fs.
Proof. intros Hp. unfold MkdirAll. by rewrite mkdirAll_exists. Qed.

Lemma MkdirAll_root fs : (MkdirAll [] fs).1 = fs.
Proof. by destruct fs. Qed.

Lemma OpenFileCreateExcl_exists p fs :
  is_Some (stat p fs) → (OpenFileCreateExcl p fs).1.1 = fs.
Proof. intros [k Hk]. unfold OpenFileCreateExcl. by rewrite Hk. Qed.

Lemma OpenFileCreateExcl_files p fs q b :
  stat q fs = Some (KFile b) →
  stat q (OpenFileCreateExcl p fs).1.1 = Some (KFile b).
Proof.
  intros Hq. unfold OpenFileCreateExcl.
  destruct (stat p fs) eqn:Hp; simpl; [done|].
  destruct (put p (File []) fs) as [fs'|] eqn:Hput; simpl; [|done].
  rewrite (stat_put_file_ne _ _ _ _ q Hput); congruence.
Qed.

Lemma OpenFileCreateExcl_new dir c fs q :
  stat dir fs = Some KDir → stat (dir ++ [c]) fs = None →
  stat q (OpenFileCreateExcl (dir ++ [c]) fs).1.1 =
    if decide (q = dir ++ [c]) then Some (KFile []) else stat q fs.
Proof.
  intros Hdir Hnew. unfold OpenFileCreateExcl. rewrite Hnew.
  destruct (put_snoc_is_Some dir c (File []) fs Hdir) as [fs' Hput].
  rewrite Hput. simpl. apply (stat_put_file _ _ _ _ q Hput). congruence.
Qed.

Lemma Dir_snoc dir c : Dir (dir ++ [c]) = dir.
Proof. apply removelast_last. Qed.

Lemma Dir_prefix p : Dir p `prefix_of` p.
Proof.
  destruct (decide (p = [])) as [->|Hp]; [done|].
  destruct (exists_last Hp) as (d & c & ->). rewrite Dir_snoc.
  by apply prefix_app_r.
Qed.

Lemma stat_Dir p fs : is_Some (stat p fs) → p ≠ [] → stat (Dir p) fs = Some KDir.
Proof.
  intros Hs Hp. destruct (exists_last Hp) as (d & c & ->).
  rewrite Dir_snoc. by apply (stat_prefix_dir d [c]).
Qed.

Section Create.
Variables (fs : filesys) (full : pathname).

(** The file branch when the path is taken: nothing happens. *)
Lemma create_file_exists :
  is_Some (stat full fs) →
  (OpenFileCreateExcl full (MkdirAll (Dir full) fs).1).1.1 = fs.
Proof.
  intros Hs.
  assert ((MkdirAll (Dir full) fs).1 = fs) as ->.
  { destruct (decide (full = [])) as [->|Hne]; [apply MkdirAll_root|].
    by apply MkdirAll_exists, stat_Dir. }
  by apply OpenFileCreateExcl_exists.
Qed.

(** The file branch when the path is free. *)
Lemma create_file_new q :
  stat full fs = None →
  (∀ r b, r `prefix_of` Dir full → stat r fs ≠ Some (KFile b)) →
  stat q (OpenFileCreateExcl full (MkdirAll (Dir full) fs).1).1.1 =
    if decide (q = full) then Some (KFile [])
    else if decide (q `prefix_of` full) then Some KDir
    else stat q fs.
Proof.
  intros Hnew Hfree.
  assert (full ≠ []) as Hne by (intros ->; by destruct fs).
  destruct (exists_last Hne) as (d & c & ->). rewrite Dir_snoc in *.
  rewrite OpenFileCreateExcl_new.
  - case_decide as Hq; [done|]. rewrite MkdirAll_stat by done.
    destruct (decide (q `prefix_of` d)) as [Hp|Hp].
    + rewrite decide_True; [done | by apply prefix_app_r].
    + rewrite decide_False; [done|].
      by intros [?|?]%prefix_snoc_inv.
  - rewrite MkdirAll_stat by done. by rewrite decide_True.
  - rewrite MkdirAll_stat by done.
    rewrite decide_False by apply prefix_snoc_not. done.
Qed.

(** The directory branch. *)
Lemma create_dir q :
  (∀ r b, r `prefix_of` full → stat r fs ≠ Some (KFile b)) →
  stat q (MkdirAll full (MkdirAll (Dir full) fs).1).1 =
    if decide (q `prefix_of` full) then Some KDir else stat q fs.
Proof.
  intros Hfree.
  assert (∀ r b, r `prefix_of` Dir full → stat r fs ≠ Some (KFile b))
    as Hfree'.
  { intros r b Hr. apply Hfree. etrans; [done | apply Dir_prefix]. }
  rewrite MkdirAll_stat.
  - case_decide as Hq; [done|]. rewrite MkdirAll_stat by done.
    rewrite decide_False; [done|]. intros Hp. apply Hq.
    etrans; [done | apply Dir_prefix].
  - intros r b Hr. rewrite MkdirAll_stat by done.
    case_decide; [done | by apply Hfree].
Qed.

Lemma create_files isDir q b :
  stat q fs = Some (KFile b) →
  stat q (if (isDir : bool)
          then (MkdirAll full (MkdirAll (Dir full) fs).1).1
          else (OpenFileCreateExcl full
                  (MkdirAll (Dir full) fs).1).1.1)
    = Some (KFile b).
Proof.
  intros Hq. destruct isDir.
  - by do 2 apply MkdirAll_files.
  - by apply OpenFileCreateExcl_files, MkdirAll_files.
Qed.
End Create.
End CreateFacts.

Module UpdateFacts.
Import RefreshFacts.

Section Events.
Context `{Toolkit}.

Lemma set_mounts_id m : set_mounts (mounts m) m = m.
Proof. by destruct m. Qed.

(** The end of [Update] touches the two list widgets only. *)
Lemma finish_ok msg m fs :
  ∃ b mo c, finish msg m fs = Ok (set_mounts mo (set_browse b m), fs, c).
Proof.
  unfold finish. destruct (decide (mode m = ModeBrowse)) as [Hb|Hb].
  - destruct (list_Update msg (browse m)) as [b c] eqn:E.
    rewrite decide_False by (simpl; congruence).
    exists b, (mounts m), c. by destruct m.
  - destruct (decide (mode m = ModeMounts)) as [Hm|Hm].
    + destruct (list_Update msg (mounts m)) as [b c] eqn:E.
      exists (browse m), b, c. by destruct m.
    + exists (browse m), (mounts m), CmdNil. by destruct m.
Qed.

(** A handler that refreshes and finishes: what is left of the model. *)
Lemma refresh_finish msg m fs :
  ∃ b mo c,
    (m' ←! refreshBrowse fs m; finish msg m' fs)
    = Ok (set_mounts mo (set_browse b m), fs, c).
Proof.
  destruct (refreshBrowse_total fs m) as [b0 ->]. simpl.
  destruct (finish_ok msg (set_browse b0 m) fs) as (b & mo & c & ->).
  by exists b, mo, c.
Qed.

(** The dispatch of the keys of [newKeyMap] in [Browse] mode. *)
Lemma Update_mark m fs :
  mode m = ModeBrowse → keys m = newKeyMap →
  Update (KeyMsg " ") m fs =
    (item ←! asFileItem (blist.SelectedItem (browse m));
     if negb (isParent item) then
       m' ←! refreshBrowse fs
               (set_marked
                  (<[path item := negb (isMarked m (path item))]> (marked m))
                  m);
       finish (KeyMsg " ") m' fs
     else finish (KeyMsg " ") m fs).
Proof. intros Hm Hk. unfold Update, updateBrowse. by rewrite Hm, Hk. Qed.

Lemma Update_yank m fs :
  mode m = ModeBrowse → keys m = newKeyMap →
  Update (KeyMsg "y") m fs =
    (m' ←! refreshBrowse fs
             (set_marked ∅
                (set_clipMode ClipCopy (set_clipboard (keysOf (marked m)) m)));
     finish (KeyMsg "y") m' fs).
Proof. intros Hm Hk. unfold Update, updateBrowse. by rewrite Hm, Hk. Qed.

Lemma Update_cut m fs :
  mode m = ModeBrowse → keys m = newKeyMap →
  Update (KeyMsg "x") m fs =
    (m' ←! refreshBrowse fs
             (set_marked ∅
                (set_clipMode ClipCut (set_clipboard (keysOf (marked m)) m)));
     finish (KeyMsg "x") m' fs).
Proof. intros Hm Hk. unfold Update, updateBrowse. by rewrite Hm, Hk. Qed.

Lemma Update_paste m fs :
  mode m = ModeBrowse → keys m = newKeyMap →
  Update (KeyMsg "p") m fs =
    (m' ←! refreshBrowse (pasteAll m fs)
             (set_clipMode ClipNone (set_clipboard [] m));
     finish (KeyMsg "p") m' (pasteAll m fs)).
Proof. intros Hm Hk. unfold Update, updateBrowse. by rewrite Hm, Hk. Qed.

Lemma Update_commit m fs :
  mode m = ModeInput → keys m = newKeyMap →
  Update (KeyMsg "enter") m fs =
    (r ←! handleInput fs m;
     let '(i, cmd) := textinput_Update (KeyMsg "enter") (input r.1) in
     Ok (set_input i r.1, r.2, cmd)).
Proof. intros Hm Hk. unfold Update, updateInput. by rewrite Hm, Hk. Qed.

End Events.
End UpdateFacts.

(** * The claims *)

(** C9 — When reading the current directory fails during a catalog
    refresh, [refreshBrowse] returns normally (no panic) and leaves the
    model, hence the displayed catalog, unchanged; at start-up, where
    nothing was listed before, the catalog is empty. *)
Theorem refresh_read_error_keeps_listing fs m :
  (os.ReadDir fs (cwd m)).2 ≠ None →
  refreshBrowse fs m = Ok m
  ∧ ∀ ed, ∃ m0, initialModel (cwd m) ed fs = Ok m0
                ∧ blist.items (browse m0) = [].
Proof.
  intros Herr. unfold initialModel, refreshBrowse. simpl.
  destruct (os.ReadDir fs (cwd m)) as [es [e|]]; [|done].
  split; [done|]. intros ed. eexists. split; [reflexivity|reflexivity].
Qed.

Lemma refresh_read_error_keeps_listing_witness :
  refreshBrowse demoFS (opened ["home"; "gone"] 0 demoFS)
  = Ok (opened ["home"; "gone"] 0 demoFS).
Proof.
  apply (refresh_read_error_keeps_listing demoFS
           (opened ["home"; "gone"] 0 demoFS)).
  vm_compute. discriminate.
Defined.

(** C6 — When the directory can be read, the catalog produced by a refresh
    is the parent link (present exactly when [filepath.Dir] of the current
    directory differs from it, that is, not at the root, and pointing at
    that parent), followed by the shown directory entries, followed by the
    shown non-directory entries, each group in the order of the directory
    listing. *)
Theorem refresh_catalog_order fs m :
  (os.ReadDir fs (cwd m)).2 = None →
  ∃ m', refreshBrowse fs m = Ok m'
        ∧ blist.items (browse m')
          = catalog (cwd m) (showHidden m) (os.ReadDir fs (cwd m)).1
        ∧ (parentLink (cwd m)
           = if decide (cwd m = []) then []
             else [FileRow {| name := ".."; path := filepath.Dir (cwd m);
                              isDir := true; isParent := true |}]).
Proof.
  intros Hok.
  destruct (RefreshFacts.refreshBrowse_lists fs m Hok) as (m' & Hm' & Hi).
  exists m'. split; [done|]. split; [done|].
  unfold parentLink. destruct (decide (cwd m = [])) as [Hr|Hr].
  - rewrite decide_False; [done|].
    intros Hd. by apply RefreshFacts.Dir_root in Hd.
  - rewrite decide_True; [done|]. by apply RefreshFacts.Dir_root.
Qed.

Lemma refresh_catalog_order_witness :
  ∃ m', refreshBrowse demoFS (blankModel home) = Ok m'
        ∧ Title <$> blist.items (browse m')
          = [".."; "box"; "d"; "a.txt"; "b.txt"].
Proof.
  destruct (refresh_catalog_order demoFS (blankModel home))
    as (m' & Hm' & Hitems & _); [reflexivity|].
  exists m'. split; [exact Hm'|]. rewrite Hitems. reflexivity.
Defined.

(** C7 — When the directory can be read, the catalog listed with
    [showHidden = false] is the catalog listed with [showHidden = true]
    without the directory entries whose names begin with a dot, the others
    in the same order.  The parent link is no entry of the directory: it is
    listed whatever [showHidden] is. *)
Theorem hidden_toggle_filters_dot_entries fs m mT mF :
  (os.ReadDir fs (cwd m)).2 = None →
  refreshBrowse fs (set_showHidden true m) = Ok mT →
  refreshBrowse fs (set_showHidden false m) = Ok mF →
  blist.items (browse mF) = filter keptRow (blist.items (browse mT)).
Proof.
  intros Hok HT HF.
  destruct (RefreshFacts.refreshBrowse_lists fs (set_showHidden true m) Hok)
    as (mT' & HT' & HiT).
  destruct (RefreshFacts.refreshBrowse_lists fs (set_showHidden false m) Hok)
    as (mF' & HF' & HiF).
  rewrite HT in HT'. rewrite HF in HF'. simplify_eq.
  rewrite HiT, HiF. simpl.
  unfold catalog. rewrite !filter_app.
  rewrite HiddenFacts.filter_kept_parentLink, !HiddenFacts.filter_kept_rows.
  rewrite HiddenFacts.filter_shown_true.
  f_equal. f_equal; f_equal; apply HiddenFacts.filter_swap.
Qed.

Lemma hidden_toggle_filters_dot_entries_witness :
  ∃ mT mF,
    refreshBrowse demoFS (set_showHidden true (blankModel home)) = Ok mT
    ∧ refreshBrowse demoFS (set_showHidden false (blankModel home)) = Ok mF
    ∧ Title <$> blist.items (browse mT)
      = [".."; "box"; "d"; ".cfg"; "a.txt"; "b.txt"]
    ∧ blist.items (browse mF) = filter keptRow (blist.items (browse mT)).
Proof.
  eexists _, _. split; [reflexivity|]. split; [reflexivity|].
  split; [reflexivity|].
  apply (hidden_toggle_filters_dot_entries demoFS (blankModel home));
    reflexivity.
Defined.

(** C5 — Every paste event in [Browse] mode returns with the clipboard
    cleared, whatever the individual copies and moves did: the snapshot is
    empty and the clipboard mode is [ClipNone]. *)
Theorem paste_clears_clipboard `{Toolkit} m fs :
  mode m = ModeBrowse → keys m = newKeyMap →
  ∃ m' cmd,
    Update (KeyMsg "p") m fs = Ok (m', pasteAll m fs, cmd)
    ∧ clipboard m' = [] ∧ clipMode m' = ClipNone.
Proof.
  intros Hm Hk. rewrite UpdateFacts.Update_paste by done.
  destruct (UpdateFacts.refresh_finish (KeyMsg "p")
              (set_clipMode ClipNone (set_clipboard [] m)) (pasteAll m fs))
    as (b & mo & c & ->).
  by eexists _, _.
Qed.

Lemma paste_clears_clipboard_witness :
  ∃ m' cmd,
    @Update plainToolkit (KeyMsg "p")
      (holding [home ++ ["a.txt"]; ["no"; "such"; "file"]] ClipCut
         (opened (home ++ ["d"]) 0 demoFS)) demoFS
    = Ok (m', @pasteAll plainToolkit
                (holding [home ++ ["a.txt"]; ["no"; "such"; "file"]] ClipCut
                   (opened (home ++ ["d"]) 0 demoFS)) demoFS, cmd)
    ∧ clipboard m' = [] ∧ clipMode m' = ClipNone.
Proof.
  apply (@paste_clears_clipboard plainToolkit); reflexivity.
Defined.

(** What a yank leaves: the snapshot is the list of all keys of the map of
    marks, the marks are gone. *)
Lemma yank_snapshot `{Toolkit} m fs :
  mode m = ModeBrowse → keys m = newKeyMap →
  ∃ m' cmd,
    Update (KeyMsg "y") m fs = Ok (m', fs, cmd)
    ∧ clipboard m' = keysOf (marked m) ∧ clipMode m' = ClipCopy
    ∧ marked m' = ∅.
Proof.
  intros Hm Hk. rewrite UpdateFacts.Update_yank by done.
  destruct (UpdateFacts.refresh_finish (KeyMsg "y")
              (set_marked ∅ (set_clipMode ClipCopy
                 (set_clipboard (keysOf (marked m)) m))) fs)
    as (b & mo & c & ->).
  by eexists _, _.
Qed.

Lemma cut_snapshot `{Toolkit} m fs :
  mode m = ModeBrowse → keys m = newKeyMap →
  ∃ m' cmd,
    Update (KeyMsg "x") m fs = Ok (m', fs, cmd)
    ∧ clipboard m' = keysOf (marked m) ∧ clipMode m' = ClipCut
    ∧ marked m' = ∅.
Proof.
  intros Hm Hk. rewrite UpdateFacts.Update_cut by done.
  destruct (UpdateFacts.refresh_finish (KeyMsg "x")
              (set_marked ∅ (set_clipMode ClipCut
                 (set_clipboard (keysOf (marked m)) m))) fs)
    as (b & mo & c & ->).
  by eexists _, _.
Qed.

(** The snapshot holds a path as soon as the map has the key, marked or
    not. *)
Lemma keysOf_spec (mk : gmap pathname bool) p :
  p ∈ keysOf mk ↔ is_Some (mk !! p).
Proof.
  unfold keysOf. rewrite list_elem_of_fmap. split.
  - intros ([q v] & -> & Hin). apply elem_of_map_to_list in Hin. eauto.
  - intros [v Hv]. exists (p, v). split; [done|].
    by apply elem_of_map_to_list.
Qed.

(** C1 — the code at the failing input: [a.txt] is marked, unmarked, and
    the yank still puts it into the snapshot. *)
Theorem yank_takes_unmarked_path :
  let a := home ++ ["a.txt"] in
  let m0 := opened home 3 demoFS in
  blist.SelectedItem (browse m0)
  = Some (FileRow {| name := "a.txt"; path := a; isDir := false;
                     isParent := false |})
  ∧ (λ m, isMarked m a) <$> modelOf (@press plainToolkit [" "] m0 demoFS)
    = Some true
  ∧ (λ m, isMarked m a)
      <$> modelOf (@press plainToolkit [" "; " "] m0 demoFS)
    = Some false
  ∧ (λ m, (clipboard m, clipMode m))
      <$> modelOf (@press plainToolkit [" "; " "; "y"] m0 demoFS)
    = Some ([a], ClipCopy).
Proof. vm_compute. done. Qed.

(** One mark event on a row that is not the parent link. *)
Lemma mark_step `{Toolkit} m fs item :
  mode m = ModeBrowse → keys m = newKeyMap →
  blist.SelectedItem (browse m) = Some (FileRow item) →
  isParent item = false →
  ∃ m1 c1,
    Update (KeyMsg " ") m fs = Ok (m1, fs, c1)
    ∧ mode m1 = ModeBrowse ∧ keys m1 = newKeyMap
    ∧ ∀ q, isMarked m1 q
           = if decide (q = path item) then negb (isMarked m q)
             else isMarked m q.
Proof.
  intros Hm Hk Hsel Hpar. rewrite UpdateFacts.Update_mark by done.
  rewrite Hsel. simpl. rewrite Hpar. simpl.
  destruct (UpdateFacts.refresh_finish (KeyMsg " ")
              (set_marked
                 (<[path item := negb (isMarked m (path item))]> (marked m))
                 m) fs)
    as (b & mo & c & ->).
  eexists _, _. split; [reflexivity|]. split; [done|]. split; [done|].
  intros q. unfold isMarked at 1. simpl.
  rewrite lookup_insert. case_decide; subst; [by rewrite decide_True|].
  by rewrite decide_False.
Qed.

(** C8 — A mark event on a row that is not the parent link toggles the
    membership of that row's path in the selection and changes no other
    path's membership; a second mark event on the same path restores the
    membership of every path; a mark event on the parent link leaves the
    selection as it is. *)
Theorem mark_is_an_involution `{Toolkit} m fs item :
  mode m = ModeBrowse → keys m = newKeyMap →
  blist.SelectedItem (browse m) = Some (FileRow item) →
  ∃ m1 c1,
    Update (KeyMsg " ") m fs = Ok (m1, fs, c1)
    ∧ (isParent item = true → marked m1 = marked m)
    ∧ (isParent item = false →
       (∀ q, isMarked m1 q
             = if decide (q = path item) then negb (isMarked m q)
               else isMarked m q)
       ∧ ∀ item',
           blist.SelectedItem (browse m1) = Some (FileRow item') →
           path item' = path item → isParent item' = false →
           ∃ m2 c2,
             Update (KeyMsg " ") m1 fs = Ok (m2, fs, c2)
             ∧ ∀ q, isMarked m2 q = isMarked m q).
Proof.
  intros Hm Hk Hsel. destruct (isParent item) eqn:Hpar.
  - rewrite UpdateFacts.Update_mark by done.
    rewrite Hsel. simpl. rewrite Hpar. simpl.
    destruct (UpdateFacts.finish_ok (KeyMsg " ") m fs) as (b & mo & c & ->).
    eexists _, _. split; [reflexivity|]. split; [done|]. done.
  - destruct (mark_step m fs item Hm Hk Hsel Hpar)
      as (m1 & c1 & HU & Hm1 & Hk1 & Hq1).
    exists m1, c1. split; [done|]. split; [done|]. intros _.
    split; [done|]. intros item' Hsel' Hpath Hpar'.
    destruct (mark_step m1 fs item' Hm1 Hk1 Hsel' Hpar')
      as (m2 & c2 & HU2 & _ & _ & Hq2).
    exists m2, c2. split; [done|]. intros q.
    rewrite Hq2, Hpath. case_decide as Hq.
    + rewrite (Hq1 q). rewrite decide_True by done.
      by rewrite negb_involutive.
    + rewrite (Hq1 q). by rewrite decide_False.
Qed.

Lemma mark_is_an_involution_witness :
  let a := home ++ ["a.txt"] in
  ∃ m1 c1 m2 c2,
    @Update plainToolkit (KeyMsg " ") (opened home 3 demoFS) demoFS
    = Ok (m1, demoFS, c1)
    ∧ isMarked m1 a = true
    ∧ @Update plainToolkit (KeyMsg " ") m1 demoFS = Ok (m2, demoFS, c2)
    ∧ ∀ q, isMarked m2 q = isMarked (opened home 3 demoFS) q.
Proof.
  intros a.
  destruct (@mark_is_an_involution plainToolkit (opened home 3 demoFS)
              demoFS
              {| name := "a.txt"; path := a; isDir := false;
                 isParent := false |})
    as (m1 & c1 & HU & _ & Hnp); [reflexivity..|].
  destruct (Hnp eq_refl) as [Hq1 Htwice].
  assert (blist.SelectedItem (browse m1)
          = Some (FileRow {| name := "a.txt"; path := a; isDir := false;
                             isParent := false |})) as Hsel.
  { vm_compute in HU. injection HU as <- <-. reflexivity. }
  destruct (Htwice _ Hsel eq_refl eq_refl) as (m2 & c2 & HU2 & Hq2).
  exists m1, c1, m2, c2. split; [exact HU|]. split.
  - rewrite Hq1. reflexivity.
  - split; [exact HU2 | exact Hq2].
Defined.

(** The commit of a buffer that is not blank. *)
Lemma handleInput_commits `{Toolkit} m fs :
  strings.TrimSpace (textinput.Value (input m)) ≠ "" →
  (inputTarget m = "rename" →
   ∃ i, blist.SelectedItem (browse m) = Some (FileRow i)) →
  ∃ b fs',
    handleInput fs m = Ok (set_browse b (set_mode ModeBrowse m), fs')
    ∧ refreshBrowse fs' (set_mode ModeBrowse m)
      = Ok (set_browse b (set_mode ModeBrowse m)).
Proof.
  intros Hne Hsel. unfold handleInput. rewrite decide_False by done.
  match goal with
  | |- context [rbind ?X _] =>
      assert (∃ fs', X = Ok fs') as [fs' ->]
  end.
  { case_decide; [case_match; eauto|].
    case_decide as Hr; [|eauto].
    destruct (Hsel Hr) as [i ->]. simpl. eauto. }
  simpl. destruct (RefreshFacts.refreshBrowse_total fs' (set_mode ModeBrowse m))
    as [b Hb].
  exists b, fs'. by rewrite Hb.
Qed.

Lemma handleInput_blank `{Toolkit} m fs :
  strings.TrimSpace (textinput.Value (input m)) = "" →
  handleInput fs m = Ok (m, fs).
Proof. intros He. unfold handleInput. by rewrite decide_True. Qed.

(** C4 (amended) — A commit (enter) event in [Input] mode hands the buffer
    to [handleInput].  When the buffer is not empty after stripping white
    space, the mode becomes [Browse] and the catalog is refreshed from the
    file system the commit left.  When the buffer is empty or blank, the
    commit does nothing at all: the mode stays [Input], nothing is
    refreshed and the file system is as before. *)
Theorem commit_returns_to_browse `{Toolkit} m fs :
  mode m = ModeInput → keys m = newKeyMap →
  (inputTarget m = "rename" →
   ∃ i, blist.SelectedItem (browse m) = Some (FileRow i)) →
  ∃ mh fs' m' cmd,
    handleInput fs m = Ok (mh, fs')
    ∧ Update (KeyMsg "enter") m fs = Ok (m', fs', cmd)
    ∧ (strings.TrimSpace (textinput.Value (input m)) ≠ "" →
       mode m' = ModeBrowse
       ∧ ∃ mr, refreshBrowse fs' (set_mode ModeBrowse m) = Ok mr
               ∧ browse m' = browse mr)
    ∧ (strings.TrimSpace (textinput.Value (input m)) = "" →
       mode m' = ModeInput ∧ fs' = fs ∧ browse m' = browse m).
Proof.
  intros Hm Hk Hsel. rewrite UpdateFacts.Update_commit by done.
  destruct (decide (strings.TrimSpace (textinput.Value (input m)) = ""))
    as [He|Hne].
  - rewrite (handleInput_blank m fs He). simpl.
    destruct (textinput_Update (KeyMsg "enter") (input m)) as [i c].
    eexists _, _, _, _. split; [reflexivity|]. split; [reflexivity|].
    split; [done|]. intros _. simpl. by rewrite Hm.
  - destruct (handleInput_commits m fs Hne Hsel) as (b & fs' & -> & Hr).
    simpl.
    destruct (textinput_Update (KeyMsg "enter") (input m)) as [i c].
    eexists _, _, _, _. split; [reflexivity|]. split; [reflexivity|].
    split; [|done]. intros _. split; [done|].
    eexists. split; [exact Hr|done].
Qed.

Lemma commit_returns_to_browse_witness :
  ∃ m' fs' cmd,
    @Update plainToolkit (KeyMsg "enter")
      (typing "create" "notes.txt" (opened home 0 demoFS)) demoFS
    = Ok (m', fs', cmd)
    ∧ mode m' = ModeBrowse
    ∧ Title <$> blist.items (browse m')
      = [".."; "box"; "d"; "a.txt"; "b.txt"; "notes.txt"].
Proof.
  destruct (@commit_returns_to_browse plainToolkit
              (typing "create" "notes.txt" (opened home 0 demoFS)) demoFS)
    as (mh & fs' & m' & cmd & Hh & HU & Hne & _);
    [reflexivity | reflexivity | intros Hr; vm_compute in Hr; discriminate |].
  exists m', fs', cmd. split; [exact HU|].
  destruct Hne as [Hmode _]; [vm_compute; discriminate|].
  split; [exact Hmode|].
  vm_compute in HU. injection HU as <- _ _. reflexivity.
Defined.

(** C4: the claim as stated fails: a commit of the empty buffer leaves the
    mode at [Input]. *)
Lemma commit_empty_buffer_counterexample :
  (λ m, (mode m, textinput.Value (input m)))
    <$> modelOf (@press plainToolkit ["i"] (opened home 0 demoFS) demoFS)
  = Some (ModeInput, "")
  ∧ mode <$> modelOf (@press plainToolkit ["i"; "enter"]
                        (opened home 0 demoFS) demoFS)
    = Some ModeInput
  ∧ mode <$> modelOf (@press plainToolkit ["i"; "enter"]
                        (opened home 0 demoFS) demoFS)
    ≠ Some ModeBrowse.
Proof. vm_compute. split_and!; [done|done|discriminate]. Qed.







(** C3 (amended) — For a buffer that is not empty after white space has
    been stripped from both ends, committed with target [create], the path
    being the current directory joined with the stripped buffer.  If the
    stripped buffer ends with a separator and no regular file lies at or
    above the path, the path and all its ancestors are directories
    afterwards and nothing else changes.  Otherwise, if something exists
    at the path the file system is left as it is, and if the path is free
    and no regular file lies above it, the missing ancestors are created
    as directories and an empty regular file is created at the path.  In
    every case each regular file that existed keeps its content. *)
Theorem create_commit `{Toolkit} m fs :
  let used := strings.TrimSpace (textinput.Value (input m)) in
  let full := filepath.Join (cwd m) used in
  inputTarget m = "create" → used ≠ "" →
  ∃ m' fs',
    handleInput fs m = Ok (m', fs')
    ∧ (∀ q b, os.stat q fs = Some (KFile b) → os.stat q fs' = Some (KFile b))
    ∧ (strings.HasSuffix used "/" = true →
       (∀ r b, r `prefix_of` full → os.stat r fs ≠ Some (KFile b)) →
       ∀ q, os.stat q fs'
            = if decide (q `prefix_of` full) then Some KDir
              else os.stat q fs)
    ∧ (strings.HasSuffix used "/" = false →
       (is_Some (os.stat full fs) → fs' = fs)
       ∧ (os.stat full fs = None →
          (∀ r b, r `prefix_of` filepath.Dir full →
                  os.stat r fs ≠ Some (KFile b)) →
          ∀ q, os.stat q fs'
               = if decide (q = full) then Some (KFile [])
                 else if decide (q `prefix_of` full) then Some KDir
                 else os.stat q fs)).
Proof.
  intros used full Ht Hne. unfold handleInput. fold used.
  rewrite decide_False by done. rewrite decide_True by done. fold full.
  destruct (strings.HasSuffix used "/") eqn:Hsuf; simpl.
  - destruct (RefreshFacts.refreshBrowse_total
                (os.MkdirAll full (os.MkdirAll (filepath.Dir full) fs).1).1
                (set_mode ModeBrowse m)) as [b ->].
    eexists _, _. split; [reflexivity|]. split_and!.
    + intros q c Hq. by apply (CreateFacts.create_files fs full true).
    + intros _ Hfree q. by apply CreateFacts.create_dir.
    + done.
  - destruct (RefreshFacts.refreshBrowse_total
                (os.OpenFileCreateExcl full
                   (os.MkdirAll (filepath.Dir full) fs).1).1.1
                (set_mode ModeBrowse m)) as [b ->].
    eexists _, _. split; [reflexivity|]. split_and!.
    + intros q c Hq. by apply (CreateFacts.create_files fs full false).
    + done.
    + intros _. split.
      * apply CreateFacts.create_file_exists.
      * intros Hnew Hfree q. by apply CreateFacts.create_file_new.
Qed.

Lemma create_commit_witness :
  (λ fs', (os.stat (home ++ ["logs"; "2024"]) fs',
           os.stat (home ++ ["logs"]) fs',
           os.stat (home ++ ["a.txt"]) fs'))
    <$> committed (@handleInput plainToolkit demoFS
                     (typing "create" " logs/2024/ " (opened home 0 demoFS)))
  = Some (Some KDir, Some KDir, Some (KFile (to_bytes "alpha"))).
Proof.
  destruct (@create_commit plainToolkit
              (typing "create" " logs/2024/ " (opened home 0 demoFS)) demoFS)
    as (m' & fs' & Hh & Hfiles & Hdir & _).
  - vm_compute. reflexivity.
  - vm_compute. discriminate.
  - rewrite Hh. cbn [committed fmap option_fmap option_map].
    lazymatch type of Hdir with
    | ?A → _ => assert A as Hs by (vm_compute; reflexivity)
    end.
    specialize (Hdir Hs).
    lazymatch type of Hdir with
    | ?A → _ => assert A as Hfree
    end.
    { intros r b Hp. vm_compute in Hp. destruct Hp as [k Hk].
      destruct r as [|c1 [|c2 [|c3 [|c4 [|c5 r]]]]];
        simpl in Hk; simplify_eq; vm_compute; discriminate. }
    specialize (Hdir Hfree).
    rewrite !Hdir.
    vm_compute. reflexivity.
Defined.

(** C3: the claim as stated fails: the buffer ["logs/ "] does not end with
    a separator, and the commit creates the directory [logs] and no file
    at the path made of the current directory and the buffer. *)
Lemma create_untrimmed_counterexample :
  let buffer := "logs/ " in
  buffer ≠ ""
  ∧ strings.HasSuffix buffer "/" = false
  ∧ filepath.Join home buffer = home ++ ["logs"; " "]
  ∧ (λ fs', (os.stat (home ++ ["logs"]) fs',
             os.stat (filepath.Join home buffer) fs'))
      <$> committed (@handleInput plainToolkit demoFS
                       (typing "create" buffer (opened home 0 demoFS)))
    = Some (Some KDir, None).
Proof. vm_compute. split_and!; [discriminate|done..]. Qed.

(** C2 (amended) — For a paste event in [Browse] mode into an existing
    current directory, and a path [src] of the snapshot that is a regular
    file, whose destination (the current directory joined with the base
    name of [src]) is free and is the destination of no other path of the
    snapshot, the snapshot holding well-formed paths: if the clipboard mode
    is [Copy], afterwards the source still has its bytes and the
    destination is a regular file with the same bytes; if the clipboard
    mode is [Cut], the source and the destination belong to the same
    volume and no other path of the snapshot lies above the source,
    afterwards the source path does not exist and the destination is a
    regular file with the original bytes. *)
Theorem paste_copies_or_moves `{Toolkit} m fs src b :
  let dst := filepath.Join (cwd m) (filepath.Base src) in
  mode m = ModeBrowse → keys m = newKeyMap →
  src ∈ clipboard m →
  Forall (λ s, validPath s = true) (clipboard m) →
  os.stat (cwd m) fs = Some KDir →
  os.stat src fs = Some (KFile b) →
  os.stat dst fs = None →
  Forall (λ s, filepath.Base s = filepath.Base src → s = src) (clipboard m) →
  clipMode m = ClipCopy
  ∨ (clipMode m = ClipCut
     ∧ volume fs src = volume fs dst
     ∧ Forall (λ s, s ≠ src → clear src s) (clipboard m)) →
  ∃ m' fs' cmd,
    Update (KeyMsg "p") m fs = Ok (m', fs', cmd)
    ∧ os.stat src fs'
      = (if decide (clipMode m = ClipCopy) then Some (KFile b) else None)
    ∧ os.stat dst fs' = Some (KFile b).
Proof.
  intros dst Hm Hk Hin Hv Hdir Hsrc Hdst Huniq Hmode.
  rewrite UpdateFacts.Update_paste by done.
  destruct (UpdateFacts.refresh_finish (KeyMsg "p")
              (set_clipMode ClipNone (set_clipboard [] m)) (pasteAll m fs))
    as (b0 & mo & c & ->).
  eexists _, _, _. split; [reflexivity|].
  assert (validPath src = true) as Hvs.
  { rewrite Forall_forall in Hv. by apply Hv. }
  assert (src ≠ []) as Hne.
  { intros ->. destruct fs; [|done]. destruct (cwd m); [done|].
    by rewrite FsFacts.stat_cons in Hdir. }
  assert (dst = cwd m ++ [filepath.Base src]) as Hd.
  { subst dst. rewrite PathFacts.destination by done.
    by rewrite decide_False. }
  rewrite Hd in *. clear dst Hd.
  assert (src ≠ cwd m ++ [filepath.Base src]) as Hsd by congruence.
  assert (Forall (λ s, s ≠ src → apart src s) (clipboard m)) as Hap.
  { rewrite Forall_forall in *. intros s Hs Hss. split; [by apply Hv|].
    intros Hb. by apply Hss, Huniq. }
  unfold pasteAll. destruct Hmode as [Hc|(Hc & Hvol & Hcl)].
  - rewrite decide_True by done.
    by apply (PasteFacts.copy_loop (volume fs) m src b Hsd).
  - rewrite decide_False by congruence.
    apply (PasteFacts.move_loop (volume fs) m src b Hsd); try done.
    rewrite Forall_forall in *. intros s Hs Hss. split; [by apply Hap|].
    by apply Hcl.
Qed.

Lemma paste_copies_or_moves_witness :
  (λ fs', (os.stat (home ++ ["a.txt"]) fs',
           os.stat (home ++ ["d"; "a.txt"]) fs'))
    <$> fsOf (@Update plainToolkit (KeyMsg "p")
                (holding [home ++ ["box"]; home ++ ["a.txt"]] ClipCut
                   (opened (home ++ ["d"]) 0 demoFS)) demoFS)
  = Some (None, Some (KFile (to_bytes "alpha"))).
Proof.
  destruct (@paste_copies_or_moves plainToolkit
              (holding [home ++ ["box"]; home ++ ["a.txt"]] ClipCut
                 (opened (home ++ ["d"]) 0 demoFS))
              demoFS (home ++ ["a.txt"]) (to_bytes "alpha"))
    as (m' & fs' & cmd & HU & Hs & Hd).
  - vm_compute. reflexivity.
  - vm_compute. reflexivity.
  - apply (bool_decide_unpack _). vm_compute. exact I.
  - apply (bool_decide_unpack _). vm_compute. exact I.
  - vm_compute. reflexivity.
  - vm_compute. reflexivity.
  - vm_compute. reflexivity.
  - apply (bool_decide_unpack _). vm_compute. exact I.
  - right. split; [vm_compute; reflexivity|].
    split; [vm_compute; reflexivity|].
    apply (bool_decide_unpack _). vm_compute. exact I.
  - rewrite HU. cbn [fsOf fmap option_fmap option_map].
    rewrite Hs. change (filepath.Join
                          (cwd (holding [home ++ ["box"]; home ++ ["a.txt"]]
                                  ClipCut (opened (home ++ ["d"]) 0 demoFS)))
                          (filepath.Base (home ++ ["a.txt"])))
      with (home ++ ["d"; "a.txt"]) in Hd.
    rewrite Hd. reflexivity.
Defined.

(** C2: the claim as stated fails.  First, the directory [box] and the
    file [box/c.txt] inside it were both cut; the destination of [c.txt] is
    free and shared with no other path, and after the paste it holds no
    file: [box] was moved first and took [c.txt] with it.  Second, with the
    directory [d] the mount point of another volume, the file [a.txt] cut
    and pasted into [d] stays where it was, and its destination holds no
    file: the move from one volume to another fails. *)
Lemma paste_cut_counterexample :
  (let src := home ++ ["box"; "c.txt"] in
   let dst := home ++ ["d"; "c.txt"] in
   let m := holding [home ++ ["box"]; src] ClipCut
              (opened (home ++ ["d"]) 0 demoFS) in
   mode m = ModeBrowse
   ∧ src ∈ clipboard m
   ∧ filepath.Join (cwd m) (filepath.Base src) = dst
   ∧ os.stat src demoFS = Some (KFile (to_bytes "gamma"))
   ∧ os.stat dst demoFS = None
   ∧ filepath.Base (home ++ ["box"]) ≠ filepath.Base src
   ∧ (λ fs', (os.stat src fs', os.stat dst fs',
              os.stat (home ++ ["d"; "box"; "c.txt"]) fs'))
       <$> fsOf (@Update plainToolkit (KeyMsg "p") m demoFS)
     = Some (None, None, Some (KFile (to_bytes "gamma"))))
  ∧ (let src := home ++ ["a.txt"] in
     let dst := home ++ ["d"; "a.txt"] in
     let m := holding [src] ClipCut (opened (home ++ ["d"]) 0 demoFS) in
     mode m = ModeBrowse
     ∧ clipboard m = [src]
     ∧ filepath.Join (cwd m) (filepath.Base src) = dst
     ∧ os.stat src demoFS = Some (KFile (to_bytes "alpha"))
     ∧ os.stat dst demoFS = None
     ∧ @volume stickToolkit demoFS src ≠ @volume stickToolkit demoFS dst
     ∧ (λ fs', (os.stat src fs', os.stat dst fs'))
         <$> fsOf (@Update stickToolkit (KeyMsg "p") m demoFS)
       = Some (Some (KFile (to_bytes "alpha")), None)).
Proof.
  split; split_and!.
  - vm_compute. reflexivity.
  - apply (bool_decide_unpack _). vm_compute. exact I.
  - vm_compute. reflexivity.
  - vm_compute. reflexivity.
  - vm_compute. reflexivity.
  - vm_compute. discriminate.
  - vm_compute. reflexivity.
  - vm_compute. reflexivity.
  - vm_compute. reflexivity.
  - vm_compute. reflexivity.
  - vm_compute. reflexivity.
  - vm_compute. reflexivity.
  - vm_compute. discriminate.
  - vm_compute. reflexivity.
Qed.

(** * Further properties of the code *)

Module MoreOsFacts.
Import os filepath FsFacts OsFacts CreateFacts.

(** A regular file renamed onto a name that is free or held by a regular
    file. *)
Lemma Rename_file vol old dir c fs b :
  stat old fs = Some (KFile b) → stat dir fs = Some KDir →
  stat (dir ++ [c]) fs ≠ Some KDir → old ≠ dir ++ [c] →
  vol old = vol (dir ++ [c]) →
  ∀ q, stat q (Rename vol old (dir ++ [c]) fs).1 =
         if decide (q = old) then None
         else if decide (q = dir ++ [c]) then Some (KFile b)
         else stat q fs.
Proof.
  intros Ho Hdir Hnew Hne Hvol.
  assert (old ≠ []) as Hold.
  { intros ->. destruct fs as [?|cs]; [|done].
    destruct dir; [done|]. by rewrite stat_cons in Hdir. }
  assert (¬ old `prefix_of` dir) as Hnp.
  { intros [k ->]. destruct k as [|c2 k].
    - rewrite app_nil_r in Hdir. congruence.
    - rewrite stat_below in Hdir; [done|done|congruence]. }
  assert (¬ old `prefix_of` dir ++ [c]) as Hnp'.
  { intros [?|?]%prefix_snoc_inv; done. }
  unfold Rename.
  destruct (find old fs) as [x|] eqn:Hx;
    [|by unfold stat in Ho; rewrite Hx in Ho].
  assert (x = File b) as ->.
  { unfold stat in Ho. rewrite Hx in Ho. by destruct x; simplify_eq. }
  assert (replaceable (File b) (find (dir ++ [c]) fs) = None) as ->.
  { unfold stat in Hnew. by destruct (find (dir ++ [c]) fs) as [[?|?]|]. }
  rewrite decide_False by done.
  rewrite decide_False by (by intros ?).
  rewrite decide_False by (intros [?|?]; [done | by destruct dir]).
  unfold isPrefix at 1. rewrite bool_decide_eq_false_2 by done.
  destruct (remove_is_Some old fs Hold) as [fs1 Hrm]; [by rewrite Ho|].
  rewrite Hrm.
  assert (stat dir fs1 = Some KDir) as Hdir1.
  { rewrite (stat_remove _ _ _ dir Hrm). unfold isPrefix.
    by rewrite bool_decide_eq_false_2. }
  destruct (put_snoc_is_Some dir c (File b) fs1 Hdir1) as [fs2 Hput].
  rewrite Hput. simpl. intros q.
  assert (stat (dir ++ [c]) fs1 ≠ Some KDir) as Hnd.
  { rewrite (stat_remove _ _ _ _ Hrm). case_match; congruence. }
  rewrite (stat_put_file _ _ _ _ q Hput Hnd).
  rewrite (stat_remove _ _ _ q Hrm). unfold isPrefix.
  destruct (decide (q = old)) as [->|Hqo].
  - rewrite decide_False by done. by rewrite bool_decide_eq_true_2.
  - case_decide; [done|].
    case_bool_decide as Hp; [|done].
    destruct Hp as [k ->]. destruct k as [|c2 k].
    + by rewrite app_nil_r in Hqo.
    + symmetry. apply stat_below; [done | congruence].
Qed.

Lemma Rename_same vol p fs : (Rename vol p p fs).1 = fs.
Proof.
  unfold Rename. destruct (find p fs) as [x|]; [|done].
  destruct (replaceable x (Some x)); [done|]. by rewrite decide_True.
Qed.

Lemma Rename_missing vol old new fs :
  stat old fs = None → (Rename vol old new fs).1 = fs.
Proof.
  intros Ho. unfold Rename.
  destruct (find old fs) as [x|] eqn:Hx; [|done].
  unfold stat in Ho. rewrite Hx in Ho. by destruct x.
Qed.

(** [os.RemoveAll] on anything but the root: the path and what is below it
    are gone, everything else is as before. *)
Lemma RemoveAll_stat p fs q :
  p ≠ [] →
  stat q (RemoveAll p fs).1 = if decide (p `prefix_of` q) then None
                              else stat q fs.
Proof.
  intros Hp. unfold RemoveAll. destruct p as [|c p]; [done|].
  destruct (remove (c :: p) fs) as [fs'|] eqn:Hrm; simpl.
  - rewrite (stat_remove _ _ _ q Hrm). unfold isPrefix.
    by destruct (decide (c :: p `prefix_of` q));
      [rewrite bool_decide_eq_true_2 | rewrite bool_decide_eq_false_2].
  - case_decide as Hq; [|done]. destruct Hq as [k ->].
    assert (stat (c :: p) fs = None) as Hn.
    { destruct (stat (c :: p) fs) eqn:E; [|done].
      destruct (remove_is_Some (c :: p) fs) as [? ?]; [done|by rewrite E|].
      congruence. }
    destruct k; [by rewrite app_nil_r|].
    apply stat_below; [done | congruence].
Qed.

(** The three ways of [copyFile] apart from the plain copy. *)
Lemma copyFile_onto_itself dir c fs b :
  stat (dir ++ [c]) fs = Some (KFile b) →
  ∀ q, stat q (copyFile (dir ++ [c]) (dir ++ [c]) fs)
       = if decide (q = dir ++ [c]) then Some (KFile []) else stat q fs.
Proof.
  intros Hs q.
  assert (stat dir fs = Some KDir) as Hdir.
  { apply (stat_prefix_dir dir [c]); [done | by rewrite Hs]. }
  destruct (put_snoc_is_Some dir c (File []) fs Hdir) as [fs1 Hp1].
  assert (stat (dir ++ [c]) fs ≠ Some KDir) as Hnd by congruence.
  pose proof (stat_put_file_eq _ _ _ _ Hp1 Hnd) as Hs1.
  assert (stat dir fs1 = Some KDir) as Hdir1.
  { rewrite (stat_put_file_ne _ _ _ _ dir Hp1); [done|done|].
    intros Heq. apply (f_equal length) in Heq.
    rewrite length_app in Heq. simpl in Heq. lia. }
  destruct (put_snoc_is_Some dir c (File []) fs1 Hdir1) as [fs2 Hp2].
  unfold copyFile, Create, io.Copy, Open. rewrite Hs. simpl.
  rewrite Hp1. simpl. rewrite Hs1, Hp2. simpl.
  rewrite (stat_put_file _ _ _ _ q Hp2) by congruence.
  case_decide; [done|]. by apply (stat_put_file_ne _ _ _ _ q Hp1).
Qed.

Lemma copyFile_no_source src dir c fs :
  (stat src fs = None ∨ stat src fs = Some KDir) →
  stat dir fs = Some KDir → stat (dir ++ [c]) fs ≠ Some KDir →
  src ≠ dir ++ [c] →
  ∀ q, stat q (copyFile src (dir ++ [c]) fs)
       = if decide (q = dir ++ [c]) then Some (KFile []) else stat q fs.
Proof.
  intros Hs Hdir Hnd Hne q.
  destruct (put_snoc_is_Some dir c (File []) fs Hdir) as [fs1 Hp1].
  assert (stat src fs1 = stat src fs) as Hs1.
  { by apply (stat_put_file_ne _ _ _ _ src Hp1). }
  unfold copyFile, Create, io.Copy, Open.
  assert ((match stat (dir ++ [c]) fs with
           | Some KDir => (fs, None, Some EISDIR)
           | _ => match put (dir ++ [c]) (File []) fs with
                  | Some fs' => (fs', Some (dir ++ [c]), None)
                  | None => (fs, None, Some ENOENT)
                  end
           end) = (fs1, Some (dir ++ [c]), None)) as ->.
  { destruct (stat (dir ++ [c]) fs) as [[?|]|]; by rewrite ?Hp1. }
  destruct Hs as [Hs|Hs]; rewrite Hs; simpl.
  - by apply (stat_put_file _ _ _ _ q Hp1).
  - rewrite Hs1, Hs. simpl. by apply (stat_put_file _ _ _ _ q Hp1).
Qed.
End MoreOsFacts.

Module DispatchFacts.
Import RefreshFacts UpdateFacts.

Section Shapes.
Context `{Toolkit}.

Lemma widgetsOnly_refl m : widgetsOnly m m.
Proof. exists (browse m), (mounts m). by destruct m. Qed.

Lemma finish_widgets msg m fs :
  ∃ m' c, finish msg m fs = Ok (m', fs, c) ∧ widgetsOnly m m'.
Proof.
  destruct (finish_ok msg m fs) as (b & mo & c & ->).
  eexists _, _. split; [done|]. by exists b, mo.
Qed.

Lemma refresh_finish_widgets msg m fs :
  ∃ m' c, (m1 ←! refreshBrowse fs m; finish msg m1 fs) = Ok (m', fs, c)
          ∧ widgetsOnly m m'.
Proof.
  destruct (refresh_finish msg m fs) as (b & mo & c & ->).
  eexists _, _. split; [done|]. by exists b, mo.
Qed.

End Shapes.
End DispatchFacts.

Module TotalFacts.
Import RefreshFacts UpdateFacts DispatchFacts.

Ltac settle :=
  repeat first
    [ match goal with
      | |- context [rbind (refreshBrowse ?fs ?m) _] =>
          let b := fresh "b" in
          destruct (refreshBrowse_total fs m) as [b ->]; cbn [rbind]
      | |- context [finish ?msg ?m ?fs] =>
          let m' := fresh "m'" in
          let c := fresh "c" in
          let Hf := fresh "Hf" in
          let Hw := fresh "Hw" in
          destruct (finish_widgets msg m fs) as (m' & c & Hf & Hw);
          rewrite Hf
      end ].

Section Total.
Context `{Toolkit}.

(** [Update] in [Browse] mode with a file row under the cursor. *)
Lemma updateBrowse_total msg m fs item :
  blist.SelectedItem (browse m) = Some (FileRow item) →
  ∃ m' fs' c, updateBrowse msg m fs = Ok (m', fs', c).
Proof.
  intros Hsel. unfold updateBrowse. rewrite Hsel. cbn [asFileItem rbind].
  repeat case_match; settle; eauto.
Qed.

(** [Update] in [Mounts] mode with a mount row under the cursor: the one
    event that the embedding does not follow is enter on a device whose
    mount point is not a clean absolute path. *)
Lemma updateMounts_total msg m fs item :
  blist.SelectedItem (mounts m) = Some (MountRow item) →
  (∃ m' fs' c, updateMounts msg m fs = Ok (m', fs', c))
  ∨ (updateMounts msg m fs = Beyond (mount item)
     ∧ key.Matches msg (Enter (keys m)) = true
     ∧ filepath.render (filepath.Join [] (mount item)) ≠ mount item).
Proof.
  intros Hsel. unfold updateMounts, asDir. rewrite Hsel.
  cbn [asMountItem rbind].
  repeat case_match; cbn [rbind]; settle; eauto.
Qed.

Lemma handleInput_total m fs :
  (inputTarget m = "rename" →
   ∃ item, blist.SelectedItem (browse m) = Some (FileRow item)) →
  ∃ m' fs', handleInput fs m = Ok (m', fs').
Proof.
  intros Hsel. unfold handleInput. case_decide; [eauto|].
  case_decide.
  - case_match; cbn [rbind]; settle; eauto.
  - case_decide as Hr; [|cbn [rbind]; settle; eauto].
    destruct (Hsel Hr) as [item ->]. cbn [asFileItem rbind]. settle. eauto.
Qed.

Lemma updateInput_total msg m fs :
  (inputTarget m = "rename" →
   ∃ item, blist.SelectedItem (browse m) = Some (FileRow item)) →
  ∃ m' fs' c, updateInput msg m fs = Ok (m', fs', c).
Proof.
  intros Hsel. unfold updateInput.
  case_match; cbn [rbind].
  - destruct (textinput_Update _ _); eauto.
  - case_match; cbn [rbind].
    + destruct (handleInput_total m fs Hsel) as (m' & fs' & ->). cbn [rbind].
      destruct (textinput_Update _ _). eauto.
    + destruct (textinput_Update _ _); eauto.
Qed.

Lemma updateView_total msg m fs :
  ∃ m' c, updateView msg m fs = Ok (m', fs, c).
Proof.
  unfold updateView. destruct (viewport_Update _ _). eauto.
Qed.

End Total.
End TotalFacts.

Import RefreshFacts UpdateFacts DispatchFacts TotalFacts.

(** X1 — With a row of the right kind under the cursor, [Update] never
    panics, whatever the event.  It returns a model, but for one event: the
    enter key in the mount menu on a device whose mount point is not a
    clean absolute path, after which the program goes on with that string
    as its directory. *)
Theorem update_never_panics_with_selection `{Toolkit} msg m fs :
  (mode m = ModeBrowse →
   ∃ i, blist.SelectedItem (browse m) = Some (FileRow i)) →
  (mode m = ModeMounts →
   ∃ i, blist.SelectedItem (mounts m) = Some (MountRow i)) →
  (mode m = ModeInput → inputTarget m = "rename" →
   ∃ i, blist.SelectedItem (browse m) = Some (FileRow i)) →
  (∃ m' fs' c, Update msg m fs = Ok (m', fs', c))
  ∨ (∃ i, mode m = ModeMounts
          ∧ blist.SelectedItem (mounts m) = Some (MountRow i)
          ∧ key.Matches msg (Enter (keys m)) = true
          ∧ filepath.render (filepath.Join [] (mount i)) ≠ mount i
          ∧ Update msg m fs = Beyond (mount i)).
Proof.
  intros Hb Hmo Hin. unfold Update. destruct msg as [k|w h].
  - destruct (mode m) eqn:Hm.
    + left. destruct (Hb eq_refl) as [i Hi]. by eapply updateBrowse_total.
    + destruct (Hmo eq_refl) as [i Hi].
      destruct (updateMounts_total (KeyMsg k) m fs i Hi)
        as [?|(HU & Hk & Hc)]; [by left|].
      right. by exists i.
    + left. apply updateInput_total. by apply Hin.
    + left.
      destruct (updateView_total (KeyMsg k) m fs) as (m' & c & ->). eauto.
  - left. settle. eauto.
Qed.

(** X2 — Without a row under the cursor the keys that act on the selected
    row panic. *)
Theorem browse_keys_panic_without_row `{Toolkit} m fs k :
  mode m = ModeBrowse → keys m = newKeyMap →
  blist.SelectedItem (browse m) = None →
  k ∈ ["enter"; " "; "r"; "d"; "v"] →
  ∃ s, Update (KeyMsg k) m fs = Panic s.
Proof.
  intros Hm Hk Hsel Hin. unfold Update, updateBrowse. rewrite Hm, Hk, Hsel.
  repeat (apply elem_of_cons in Hin as [->|Hin]; [by eexists|]).
  by apply elem_of_nil in Hin.
Qed.

Section Frames.
Context `{Toolkit}.

Lemma Matches_one k k' : key.Matches (KeyMsg k) [k'] = true → k = k'.
Proof.
  unfold key.Matches. intros Hk%bool_decide_eq_true.
  apply elem_of_cons in Hk as [?|Hk]; [done|]. by apply elem_of_nil in Hk.
Qed.

(** Which cases of the [Browse] switch write to the file system. *)
Lemma updateBrowse_files msg m fs m' fs' c :
  updateBrowse msg m fs = Ok (m', fs', c) →
  fs' = fs
  ∨ key.Matches msg (Paste (keys m)) = true
  ∨ key.Matches msg (Delete (keys m)) = true.
Proof.
  unfold updateBrowse.
  repeat match goal with
         | |- context [key.Matches ?a ?b] =>
             destruct (key.Matches a b) eqn:?
         end; auto;
    try (destruct (asFileItem _); cbn [rbind]; [|done..]);
    repeat case_match; settle; intros ?; simplify_eq; auto.
Qed.

Lemma updateMounts_files msg m fs m' fs' c :
  updateMounts msg m fs = Ok (m', fs', c) →
  fs' = fs ∨ key.Matches msg (Enter (keys m)) = true.
Proof.
  unfold updateMounts.
  repeat match goal with
         | |- context [key.Matches ?a ?b] =>
             destruct (key.Matches a b) eqn:?
         end; auto;
    try (destruct (asMountItem _); cbn [rbind]; [|done..]);
    repeat case_match; settle; intros ?; simplify_eq; auto.
Qed.

Lemma updateInput_files msg m fs m' fs' c :
  updateInput msg m fs = Ok (m', fs', c) →
  fs' = fs ∨ key.Matches msg ["enter"] = true.
Proof.
  unfold updateInput.
  repeat match goal with
         | |- context [key.Matches ?a ?b] =>
             destruct (key.Matches a b) eqn:?
         end; auto; cbn [rbind];
    destruct (textinput_Update _ _); intros ?; simplify_eq; auto.
Qed.

End Frames.

(** X3 — The file system changes only on a paste or delete key in [Browse]
    mode and on enter in [Input] or [Mounts] mode: after any other event
    it is the one before.  In particular the back key in [Mounts] mode
    never runs the unmount command bound to it. *)
Theorem files_change_only_on_paste_delete_commit `{Toolkit}
    msg m fs m' fs' c :
  keys m = newKeyMap →
  match msg with
  | KeyMsg k => mutating (mode m) k = false
  | WindowSizeMsg _ _ => True
  end →
  Update msg m fs = Ok (m', fs', c) → fs' = fs.
Proof.
  intros Hk Hmut. unfold Update. destruct msg as [k|w h].
  - destruct (mode m) eqn:Hm; simpl in Hmut.
    + apply bool_decide_eq_false in Hmut. intros HU.
      apply updateBrowse_files in HU as [?|[HU|HU]]; [done|..];
        rewrite Hk in HU; apply Matches_one in HU; destruct Hmut; auto.
    + apply bool_decide_eq_false in Hmut. intros HU.
      apply updateMounts_files in HU as [?|HU]; [done|].
      rewrite Hk in HU. by apply Matches_one in HU.
    + apply bool_decide_eq_false in Hmut. intros HU.
      apply updateInput_files in HU as [?|HU]; [done|].
      by apply Matches_one in HU.
    + destruct (updateView_total (KeyMsg k) m fs) as (m1 & c1 & ->).
      congruence.
  - settle. congruence.
Qed.

Lemma update_never_panics_with_selection_witness :
  ∃ m' fs' c,
    @Update plainToolkit (KeyMsg "v") (opened home 3 demoFS) demoFS
    = Ok (m', fs', c).
Proof.
  destruct (@update_never_panics_with_selection plainToolkit (KeyMsg "v")
              (opened home 3 demoFS) demoFS) as [Hok|(i & Hm & _)].
  - intros _.
    exists {| name := "a.txt"; path := home ++ ["a.txt"]; isDir := false;
              isParent := false |}.
    vm_compute. reflexivity.
  - intros Hm. vm_compute in Hm. discriminate.
  - intros Hm. vm_compute in Hm. discriminate.
  - exact Hok.
  - vm_compute in Hm. discriminate.
Defined.

Lemma browse_keys_panic_without_row_witness :
  ∃ m0 s,
    initialModel ["home"; "gone"] "" demoFS = Ok m0
    ∧ @Update plainToolkit (KeyMsg "enter") m0 demoFS = Panic s.
Proof.
  eexists _. 
  destruct (@browse_keys_panic_without_row plainToolkit
              (blankModel ["home"; "gone"]) demoFS "enter") as [s Hs].
  - reflexivity.
  - reflexivity.
  - reflexivity.
  - apply (bool_decide_unpack _). vm_compute. exact I.
  - exists s. split; [vm_compute; reflexivity | exact Hs].
Defined.

Lemma files_change_only_on_paste_delete_commit_witness :
  fsOf (@Update plainToolkit (KeyMsg "esc")
          (onMounts [{| dev := "/dev/sdb1"; mount := "/mnt" |}]
             (blankModel home)) demoFS)
  = Some demoFS.
Proof.
  destruct (@Update plainToolkit (KeyMsg "esc")
              (onMounts [{| dev := "/dev/sdb1"; mount := "/mnt" |}]
                 (blankModel home)) demoFS)
    as [[[m' fs'] c]|s|s] eqn:HU.
  - cbn [fsOf]. f_equal.
    apply (@files_change_only_on_paste_delete_commit plainToolkit
             (KeyMsg "esc")
             (onMounts [{| dev := "/dev/sdb1"; mount := "/mnt" |}]
                (blankModel home)) demoFS m' fs' c);
      [reflexivity | reflexivity | exact HU].
  - vm_compute in HU. discriminate HU.
  - vm_compute in HU. discriminate HU.
Defined.

(** X4 — A commit with target [rename], a regular file under the cursor and
    a destination (the current directory joined with the stripped buffer)
    on the volume of the file, whose parent directory exists and which is
    not a directory: the file is at the destination afterwards, replacing
    without notice a regular file that was there, it is gone from its old
    path, nothing else changes, and the mode is [Browse]. *)
Theorem rename_commit `{Toolkit} m fs item b :
  let used := strings.TrimSpace (textinput.Value (input m)) in
  let dst := filepath.Join (cwd m) used in
  inputTarget m = "rename" → used ≠ "" →
  blist.SelectedItem (browse m) = Some (FileRow item) →
  os.stat (path item) fs = Some (KFile b) →
  dst ≠ [] → os.stat (filepath.Dir dst) fs = Some KDir →
  os.stat dst fs ≠ Some KDir →
  volume fs (path item) = volume fs dst →
  ∃ m' fs',
    handleInput fs m = Ok (m', fs')
    ∧ mode m' = ModeBrowse
    ∧ ∀ q, os.stat q fs'
           = if decide (q = dst) then Some (KFile b)
             else if decide (q = path item) then None
             else os.stat q fs.
Proof.
  intros used dst Ht Hne Hsel Hsrc Hdst Hdir Hnd Hvol.
  unfold handleInput. fold used. rewrite decide_False by done.
  rewrite decide_False by (rewrite Ht; discriminate).
  rewrite decide_True by done. rewrite Hsel. cbn [asFileItem rbind].
  fold dst.
  destruct (refreshBrowse_total
              (os.Rename (volume fs) (path item) dst fs).1
              (set_mode ModeBrowse m)) as [b0 ->].
  eexists _, _. split; [reflexivity|]. split; [done|]. intros q.
  destruct (exists_last Hdst) as (d & c & Hd). rewrite Hd in *.
  rewrite CreateFacts.Dir_snoc in Hdir.
  destruct (decide (path item = d ++ [c])) as [Heq|Hneq].
  - rewrite Heq, MoreOsFacts.Rename_same.
    case_decide; subst; [by rewrite <- Heq | done].
  - rewrite (MoreOsFacts.Rename_file _ _ _ _ _ _ Hsrc Hdir Hnd Hneq Hvol).
    repeat case_decide; subst; done.
Qed.

Lemma rename_commit_witness :
  (λ fs', (os.stat (home ++ ["a.txt"]) fs',
           os.stat (home ++ ["b.txt"]) fs'))
    <$> committed (@handleInput plainToolkit demoFS
                     (typing "rename" "b.txt" (opened home 3 demoFS)))
  = Some (None, Some (KFile (to_bytes "alpha"))).
Proof.
  destruct (@rename_commit plainToolkit
              (typing "rename" "b.txt" (opened home 3 demoFS))
              demoFS
              {| name := "a.txt"; path := home ++ ["a.txt"]; isDir := false;
                 isParent := false |} (to_bytes "alpha"))
    as (m' & fs' & Hh & _ & Hq).
  - reflexivity.
  - vm_compute. discriminate.
  - vm_compute. reflexivity.
  - vm_compute. reflexivity.
  - vm_compute. discriminate.
  - vm_compute. reflexivity.
  - vm_compute. discriminate.
  - reflexivity.
  - rewrite Hh. cbn [committed fmap option_fmap option_map].
    rewrite !Hq. vm_compute. reflexivity.
Defined.

Section Keys.
Context `{Toolkit}.

Lemma Update_delete m fs :
  mode m = ModeBrowse → keys m = newKeyMap →
  Update (KeyMsg "d") m fs =
    (item ←! asFileItem (blist.SelectedItem (browse m));
     if negb (isParent item) then
       m' ←! refreshBrowse (os.RemoveAll (path item) fs).1
               (set_marked (delete (path item) (marked m)) m);
       finish (KeyMsg "d") m' (os.RemoveAll (path item) fs).1
     else finish (KeyMsg "d") m fs).
Proof. intros Hm Hk. unfold Update, updateBrowse. by rewrite Hm, Hk. Qed.

Lemma Update_enter m fs :
  mode m = ModeBrowse → keys m = newKeyMap →
  Update (KeyMsg "enter") m fs =
    (item ←! asFileItem (blist.SelectedItem (browse m));
     if isDir item then
       m' ←! refreshBrowse fs (set_cwd (path item) m);
       finish (KeyMsg "enter") m' fs
     else Ok (m, fs, CmdExecProcess (editor m) (path item))).
Proof. intros Hm Hk. unfold Update, updateBrowse. by rewrite Hm, Hk. Qed.

Lemma Update_view m fs :
  mode m = ModeBrowse → keys m = newKeyMap →
  Update (KeyMsg "v") m fs =
    (item ←! asFileItem (blist.SelectedItem (browse m));
     if negb (isParent item) && negb (isDir item) then
       finish (KeyMsg "v")
         (set_mode ModeView
            (set_view
               (viewport.SetContent
                  (of_bytes (os.ReadFile (path item) fs).1) (view m)) m))
         fs
     else finish (KeyMsg "v") m fs).
Proof. intros Hm Hk. unfold Update, updateBrowse. by rewrite Hm, Hk. Qed.

Lemma Update_new m fs :
  mode m = ModeBrowse → keys m = newKeyMap →
  Update (KeyMsg "i") m fs =
    finish (KeyMsg "i")
      (set_inputTarget "create"
         (set_input (textinput.SetValue textinput_sanitize "" (input m))
            (set_mode ModeInput m))) fs.
Proof. intros Hm Hk. unfold Update, updateBrowse. by rewrite Hm, Hk. Qed.

Lemma Update_rename m fs :
  mode m = ModeBrowse → keys m = newKeyMap →
  Update (KeyMsg "r") m fs =
    (item ←! asFileItem (blist.SelectedItem (browse m));
     if negb (isParent item) then
       finish (KeyMsg "r")
         (set_inputTarget "rename"
            (set_input
               (textinput.SetValue textinput_sanitize (name item) (input m))
               (set_mode ModeInput m))) fs
     else finish (KeyMsg "r") m fs).
Proof. intros Hm Hk. unfold Update, updateBrowse. by rewrite Hm, Hk. Qed.

Lemma Update_toggle m fs :
  mode m = ModeBrowse → keys m = newKeyMap →
  Update (KeyMsg "h") m fs =
    (m' ←! refreshBrowse fs (set_showHidden (negb (showHidden m)) m);
     finish (KeyMsg "h") m' fs).
Proof. intros Hm Hk. unfold Update, updateBrowse. by rewrite Hm, Hk. Qed.

End Keys.

(** X5 — The delete key on a row that is not the parent link removes the
    row's path and everything below it and nothing else, and drops the
    path from the map of marks, so that a later yank does not take it; on
    the parent link it changes neither the files nor the marks. *)
Theorem delete_removes_subtree `{Toolkit} m fs item :
  mode m = ModeBrowse → keys m = newKeyMap →
  blist.SelectedItem (browse m) = Some (FileRow item) →
  ∃ m' fs' c,
    Update (KeyMsg "d") m fs = Ok (m', fs', c)
    ∧ (isParent item = true → fs' = fs ∧ marked m' = marked m)
    ∧ (isParent item = false →
       marked m' = delete (path item) (marked m)
       ∧ (path item ∉ keysOf (marked m'))
       ∧ (path item ≠ [] →
          ∀ q, os.stat q fs'
               = if decide ((path item) `prefix_of` q) then None
                 else os.stat q fs)).
Proof.
  intros Hm Hk Hsel. rewrite Update_delete by done.
  rewrite Hsel. cbn [asFileItem rbind].
  destruct (isParent item) eqn:Hp; cbn [negb].
  - destruct (finish_widgets (KeyMsg "d") m fs) as (m' & c & -> & b & mo & ->).
    eexists _, _, _. split; [reflexivity|]. split; [done|]. done.
  - destruct (refresh_finish_widgets (KeyMsg "d")
                (set_marked (delete (path item) (marked m)) m)
                (os.RemoveAll (path item) fs).1)
      as (m' & c & -> & b & mo & ->).
    eexists _, _, _. split; [reflexivity|]. split; [done|]. intros _.
    split; [done|]. split.
    + rewrite keysOf_spec. cbn. rewrite lookup_delete_eq.
      by intros [? ?].
    + intros Hne q. by apply MoreOsFacts.RemoveAll_stat.
Qed.

Lemma delete_removes_subtree_witness :
  (λ fs', (os.stat (home ++ ["box"]) fs',
           os.stat (home ++ ["box"; "c.txt"]) fs',
           os.stat (home ++ ["a.txt"]) fs'))
    <$> fsOf (@Update plainToolkit (KeyMsg "d") (opened home 1 demoFS) demoFS)
  = Some (None, None, Some (KFile (to_bytes "alpha"))).
Proof.
  destruct (@delete_removes_subtree plainToolkit (opened home 1 demoFS)
              demoFS
              {| name := "box"; path := home ++ ["box"]; isDir := true;
                 isParent := false |})
    as (m' & fs' & c & HU & _ & Hd).
  - reflexivity.
  - reflexivity.
  - vm_compute. reflexivity.
  - rewrite HU. cbn [fsOf fmap option_fmap option_map].
    destruct (Hd eq_refl) as (_ & _ & Hq).
    rewrite !Hq by discriminate. vm_compute. reflexivity.
Defined.

(** X6 — [copyFile] of a regular file onto itself leaves it empty: the
    destination is truncated before the source is read.  Nothing else
    changes. *)
Theorem copyFile_onto_itself_truncates p fs b :
  os.stat p fs = Some (KFile b) →
  ∀ q, os.stat q (copyFile p p fs)
       = if decide (q = p) then Some (KFile []) else os.stat q fs.
Proof.
  intros Hp q. destruct (decide (p = [])) as [->|Hne].
  - destruct fs as [b'|cs]; [|done]. simplify_eq/=.
    destruct q; [done|]. by rewrite !FsFacts.stat_cons.
  - destruct (exists_last Hne) as (d & c & ->).
    by apply MoreOsFacts.copyFile_onto_itself with (b := b).
Qed.

Lemma copyFile_onto_itself_truncates_witness :
  os.stat (home ++ ["a.txt"])
    (copyFile (home ++ ["a.txt"]) (home ++ ["a.txt"]) demoFS)
  = Some (KFile [])
  ∧ os.stat (home ++ ["b.txt"])
      (copyFile (home ++ ["a.txt"]) (home ++ ["a.txt"]) demoFS)
    = Some (KFile (to_bytes "beta")).
Proof.
  rewrite !(copyFile_onto_itself_truncates (home ++ ["a.txt"]) demoFS
              (to_bytes "alpha") eq_refl).
  split; reflexivity.
Defined.

(** X7 — [copyFile] from a path that does not exist, or that is a
    directory, still creates the destination, or truncates it, as an empty
    regular file, when the destination is another path than the source,
    its directory exists and it is not a directory. *)
Theorem copyFile_without_source_leaves_empty_file src dst fs :
  os.stat src fs = None ∨ os.stat src fs = Some KDir →
  dst ≠ [] → os.stat (filepath.Dir dst) fs = Some KDir →
  os.stat dst fs ≠ Some KDir → src ≠ dst →
  ∀ q, os.stat q (copyFile src dst fs)
       = if decide (q = dst) then Some (KFile []) else os.stat q fs.
Proof.
  intros Hs Hne Hdir Hnd Hsd q.
  destruct (exists_last Hne) as (d & c & ->).
  rewrite CreateFacts.Dir_snoc in Hdir.
  by apply MoreOsFacts.copyFile_no_source.
Qed.

Lemma copyFile_without_source_leaves_empty_file_witness :
  os.stat (home ++ ["d"; "box"])
    (copyFile (home ++ ["box"]) (home ++ ["d"; "box"]) demoFS)
  = Some (KFile [])
  ∧ os.stat (home ++ ["b.txt"])
      (copyFile ["no"; "such"] (home ++ ["b.txt"]) demoFS)
    = Some (KFile []).
Proof.
  split.
  - rewrite (copyFile_without_source_leaves_empty_file (home ++ ["box"])
               (home ++ ["d"; "box"]) demoFS);
      [reflexivity | right; reflexivity | discriminate | reflexivity
      | discriminate | discriminate].
  - rewrite (copyFile_without_source_leaves_empty_file ["no"; "such"]
               (home ++ ["b.txt"]) demoFS);
      [reflexivity | left; reflexivity | discriminate | reflexivity
      | discriminate | discriminate].
Defined.

Lemma pasteAll_copy_frame vol m l fs q :
  clipMode m = ClipCopy →
  Forall (λ s, filepath.Join (cwd m) (filepath.Base s) ≠ q) l →
  os.stat q (fold_left (pasteStep vol m) l fs) = os.stat q fs.
Proof.
  intros Hc Hl. revert fs. induction Hl as [|s l Hs Hl IH]; intros fs; [done|].
  simpl. rewrite IH. unfold pasteStep. rewrite decide_True by done.
  by apply OsFacts.copyFile_frame.
Qed.

(** X8 — A paste in [Copy] mode changes nothing but the destinations of the
    snapshot paths: every other path, the sources included, is as
    before. *)
Theorem copy_paste_touches_destinations_only `{Toolkit} m fs q :
  mode m = ModeBrowse → keys m = newKeyMap → clipMode m = ClipCopy →
  Forall (λ s, filepath.Join (cwd m) (filepath.Base s) ≠ q) (clipboard m) →
  ∃ m' fs' c,
    Update (KeyMsg "p") m fs = Ok (m', fs', c)
    ∧ os.stat q fs' = os.stat q fs.
Proof.
  intros Hm Hk Hc Hq. rewrite Update_paste by done.
  destruct (refresh_finish (KeyMsg "p")
              (set_clipMode ClipNone (set_clipboard [] m)) (pasteAll m fs))
    as (b & mo & c & ->).
  eexists _, _, _. split; [reflexivity|]. by apply pasteAll_copy_frame.
Qed.

Lemma copy_paste_touches_destinations_only_witness :
  (λ fs', os.stat (home ++ ["a.txt"]) fs')
    <$> fsOf (@Update plainToolkit (KeyMsg "p")
                (holding [home ++ ["a.txt"]; home ++ ["box"]] ClipCopy
                   (opened (home ++ ["d"]) 0 demoFS)) demoFS)
  = Some (Some (KFile (to_bytes "alpha"))).
Proof.
  destruct (@copy_paste_touches_destinations_only plainToolkit
              (holding [home ++ ["a.txt"]; home ++ ["box"]] ClipCopy
                 (opened (home ++ ["d"]) 0 demoFS))
              demoFS (home ++ ["a.txt"]))
    as (m' & fs' & c & HU & Hq).
  - reflexivity.
  - reflexivity.
  - reflexivity.
  - apply (bool_decide_unpack _). vm_compute. exact I.
  - rewrite HU. cbn [fsOf fmap option_fmap option_map]. rewrite Hq.
    reflexivity.
Defined.

(** X9 — Yank and paste in the same directory: a regular file of the
    current directory that is the whole snapshot is left empty by a paste
    in [Copy] mode. *)
Theorem copy_paste_in_place_empties_file `{Toolkit} m fs n b :
  mode m = ModeBrowse → keys m = newKeyMap → clipMode m = ClipCopy →
  validName n = true → clipboard m = [cwd m ++ [n]] →
  os.stat (cwd m ++ [n]) fs = Some (KFile b) →
  ∃ m' fs' c,
    Update (KeyMsg "p") m fs = Ok (m', fs', c)
    ∧ ∀ q, os.stat q fs'
           = if decide (q = cwd m ++ [n]) then Some (KFile [])
             else os.stat q fs.
Proof.
  intros Hm Hk Hc Hn Hclip Hs. rewrite Update_paste by done.
  destruct (refresh_finish (KeyMsg "p")
              (set_clipMode ClipNone (set_clipboard [] m)) (pasteAll m fs))
    as (b0 & mo & c & ->).
  eexists _, _, _. split; [reflexivity|]. intros q.
  unfold pasteAll. rewrite Hclip. simpl. unfold pasteStep.
  rewrite decide_True by done.
  rewrite PathFacts.Base_snoc, PathFacts.Join_name by done.
  destruct (exists_last (l := cwd m ++ [n])) as (d & c1 & Hd); [by destruct (cwd m)|]. rewrite Hd in *. by apply MoreOsFacts.copyFile_onto_itself with (b := b).
Qed.

Lemma copy_paste_in_place_empties_file_witness :
  (λ fs', os.stat (home ++ ["a.txt"]) fs')
    <$> fsOf (@Update plainToolkit (KeyMsg "p")
                (holding [home ++ ["a.txt"]] ClipCopy
                   (opened home 3 demoFS)) demoFS)
  = Some (Some (KFile [])).
Proof.
  destruct (@copy_paste_in_place_empties_file plainToolkit
              (holding [home ++ ["a.txt"]] ClipCopy (opened home 3 demoFS))
              demoFS "a.txt" (to_bytes "alpha"))
    as (m' & fs' & c & HU & Hq).
  - vm_compute. reflexivity.
  - vm_compute. reflexivity.
  - vm_compute. reflexivity.
  - vm_compute. reflexivity.
  - vm_compute. reflexivity.
  - vm_compute. reflexivity.
  - rewrite HU. cbn [fsOf fmap option_fmap option_map].
    rewrite (Hq (home ++ ["a.txt"])). vm_compute. reflexivity.
Defined.

(** X10 — A yank or cut takes as snapshot every key of the map of marks,
    each once and whatever its value, sets the clipboard mode, empties the
    map of marks and leaves the files and the current directory alone. *)
Theorem snapshot_takes_every_key `{Toolkit} m fs k :
  mode m = ModeBrowse → keys m = newKeyMap → k = "y" ∨ k = "x" →
  ∃ m' c,
    Update (KeyMsg k) m fs = Ok (m', fs, c)
    ∧ NoDup (clipboard m')
    ∧ (∀ p, p ∈ clipboard m' ↔ is_Some (marked m !! p))
    ∧ clipMode m' = (if decide (k = "y") then ClipCopy else ClipCut)
    ∧ marked m' = ∅ ∧ cwd m' = cwd m ∧ mode m' = ModeBrowse.
Proof.
  intros Hm Hk [->| ->].
  - rewrite Update_yank by done.
    destruct (refresh_finish (KeyMsg "y")
                (set_marked ∅ (set_clipMode ClipCopy
                   (set_clipboard (keysOf (marked m)) m))) fs)
      as (b & mo & c & ->).
    eexists _, _. split; [reflexivity|]. cbn. split_and!; try done.
    + apply NoDup_fst_map_to_list.
    + intros p. apply keysOf_spec.
  - rewrite Update_cut by done.
    destruct (refresh_finish (KeyMsg "x")
                (set_marked ∅ (set_clipMode ClipCut
                   (set_clipboard (keysOf (marked m)) m))) fs)
      as (b & mo & c & ->).
    eexists _, _. split; [reflexivity|]. cbn. split_and!; try done.
    + apply NoDup_fst_map_to_list.
    + intros p. apply keysOf_spec.
Qed.

Lemma snapshot_takes_every_key_witness :
  ∃ m' c,
    @Update plainToolkit (KeyMsg "x")
      (set_marked {[ home ++ ["a.txt"] := true; home ++ ["b.txt"] := false ]}
         (opened home 0 demoFS)) demoFS
    = Ok (m', demoFS, c)
    ∧ home ++ ["b.txt"] ∈ clipboard m' ∧ clipMode m' = ClipCut.
Proof.
  destruct (@snapshot_takes_every_key plainToolkit
              (set_marked
                 {[ home ++ ["a.txt"] := true; home ++ ["b.txt"] := false ]}
                 (opened home 0 demoFS)) demoFS "x")
    as (m' & c & HU & _ & Hin & Hc & _);
    [reflexivity | reflexivity | right; reflexivity |].
  exists m', c. split; [exact HU|]. split; [|exact Hc].
  apply Hin. exists false. vm_compute. reflexivity.
Defined.

(** X11 — Entering a directory and looking back: when the directory named
    by an entry of the current directory can be read, the catalog of that
    directory starts with the parent link, and the parent link leads back
    to the directory one came from. *)
Theorem parent_link_leads_back fs m e :
  validName (os.Name e) = true →
  (os.ReadDir fs (path (entryItem (cwd m) e))).2 = None →
  ∃ m',
    refreshBrowse fs (set_cwd (path (entryItem (cwd m) e)) m) = Ok m'
    ∧ head (blist.items (browse m'))
      = Some (FileRow {| name := ".."; path := cwd m; isDir := true;
                         isParent := true |}).
Proof.
  intros Hn Hok. cbn [entryItem path] in *.
  rewrite PathFacts.Join_name in * by done.
  destruct (refreshBrowse_lists fs (set_cwd (cwd m ++ [os.Name e]) m) Hok)
    as (m' & Hm' & Hi).
  exists m'. split; [done|]. rewrite Hi. unfold catalog, parentLink.
  cbn [cwd set_cwd]. rewrite decide_True.
  - unfold parentItem, filepath.Dir. by rewrite removelast_last.
  - apply Dir_root. by destruct (cwd m).
Qed.

Lemma parent_link_leads_back_witness :
  ∃ m',
    refreshBrowse demoFS (set_cwd (home ++ ["box"]) (opened home 1 demoFS))
    = Ok m'
    ∧ head (blist.items (browse m'))
      = Some (FileRow {| name := ".."; path := home; isDir := true;
                         isParent := true |}).
Proof.
  apply (parent_link_leads_back demoFS (opened home 1 demoFS)
           {| os.Name := "box"; os.IsDir := true |}); reflexivity.
Defined.

(** X12 — The view key on a row that is neither the parent link nor a
    directory enters [View] mode with the bytes of the file as content,
    and with empty content when the file cannot be read; on the parent
    link and on a directory it leaves mode and content alone.  The files
    are never changed. *)
Theorem view_shows_file_content `{Toolkit} m fs item :
  mode m = ModeBrowse → keys m = newKeyMap →
  blist.SelectedItem (browse m) = Some (FileRow item) →
  ∃ m' c,
    Update (KeyMsg "v") m fs = Ok (m', fs, c)
    ∧ (isParent item = false → isDir item = false →
       mode m' = ModeView
       ∧ viewport.content (view m')
         = match os.stat (path item) fs with
           | Some (KFile b) => of_bytes b
           | _ => ""
           end)
    ∧ (isParent item = true ∨ isDir item = true →
       mode m' = ModeBrowse ∧ view m' = view m).
Proof.
  intros Hm Hk Hsel. rewrite Update_view by done.
  rewrite Hsel. cbn [asFileItem rbind].
  destruct (isParent item) eqn:Hp, (isDir item) eqn:Hd; cbn [negb andb].
  4:{ destruct (finish_widgets (KeyMsg "v")
                  (set_mode ModeView
                     (set_view
                        (viewport.SetContent
                           (of_bytes (os.ReadFile (path item) fs).1)
                           (view m)) m)) fs)
        as (m' & c & -> & b & mo & ->).
      eexists _, _. split; [reflexivity|]. split.
      - intros _ _. split; [done|]. cbn. unfold os.ReadFile.
        by destruct (os.stat (path item) fs) as [[?|]|].
      - intros [?|?]; done. }
  all: destruct (finish_widgets (KeyMsg "v") m fs)
         as (m' & c & -> & b & mo & ->).
  all: eexists _, _; split; [reflexivity|]; split; [done|].
  all: intros _; by rewrite <- Hm.
Qed.

Lemma view_shows_file_content_witness :
  (λ m', (mode m', viewport.content (view m')))
    <$> modelOf (@Update plainToolkit (KeyMsg "v") (opened home 4 demoFS)
                   demoFS)
  = Some (ModeView, "beta").
Proof.
  destruct (@view_shows_file_content plainToolkit (opened home 4 demoFS)
              demoFS
              {| name := "b.txt"; path := home ++ ["b.txt"]; isDir := false;
                 isParent := false |})
    as (m' & c & HU & Hv & _).
  - vm_compute. reflexivity.
  - vm_compute. reflexivity.
  - vm_compute. reflexivity.
  - rewrite HU. cbn [modelOf fmap option_fmap option_map].
    destruct (Hv eq_refl eq_refl) as [-> ->]. vm_compute. reflexivity.
Defined.

(** X13 — The enter key in [Browse] mode: on a row that is not a directory
    it asks the event loop to run the editor on the row's path and changes
    nothing; on a directory row (the parent link included) it makes the
    row's path the current directory and keeps the marks, the clipboard
    and the files. *)
Theorem enter_opens_or_descends `{Toolkit} m fs item :
  mode m = ModeBrowse → keys m = newKeyMap →
  blist.SelectedItem (browse m) = Some (FileRow item) →
  (isDir item = false →
   Update (KeyMsg "enter") m fs
   = Ok (m, fs, CmdExecProcess (editor m) (path item)))
  ∧ (isDir item = true →
     ∃ m' c,
       Update (KeyMsg "enter") m fs = Ok (m', fs, c)
       ∧ cwd m' = path item ∧ mode m' = ModeBrowse
       ∧ marked m' = marked m ∧ clipboard m' = clipboard m
       ∧ clipMode m' = clipMode m ∧ showHidden m' = showHidden m).
Proof.
  intros Hm Hk Hsel. rewrite Update_enter by done.
  rewrite Hsel. cbn [asFileItem rbind]. split; intros ->; [done|].
  destruct (refresh_finish (KeyMsg "enter") (set_cwd (path item) m) fs)
    as (b & mo & c & ->).
  eexists _, _. split; [reflexivity|]. by cbn.
Qed.

Lemma enter_opens_or_descends_witness :
  @Update plainToolkit (KeyMsg "enter") (opened home 3 demoFS) demoFS
  = Ok (opened home 3 demoFS, demoFS,
        CmdExecProcess "vi" (home ++ ["a.txt"])).
Proof.
  destruct (@enter_opens_or_descends plainToolkit (opened home 3 demoFS)
              demoFS
              {| name := "a.txt"; path := home ++ ["a.txt"]; isDir := false;
                 isParent := false |})
    as [Hfile _].
  - vm_compute. reflexivity.
  - vm_compute. reflexivity.
  - vm_compute. reflexivity.
  - exact (Hfile eq_refl).
Defined.

(** X14 — With the parent link under the cursor the mark, rename, delete and
    view keys do nothing: the files are untouched and the model changes at
    most in the state of the list widgets, so the mode stays [Browse] and
    the marks are the same. *)
Theorem parent_link_is_protected `{Toolkit} m fs item k :
  mode m = ModeBrowse → keys m = newKeyMap →
  blist.SelectedItem (browse m) = Some (FileRow item) →
  isParent item = true →
  k ∈ [" "; "r"; "d"; "v"] →
  ∃ m' c, Update (KeyMsg k) m fs = Ok (m', fs, c) ∧ widgetsOnly m m'.
Proof.
  intros Hm Hk Hsel Hp Hin.
  destruct (finish_widgets (KeyMsg k) m fs) as (m' & c & Hf & Hw).
  exists m', c. split; [|done].
  repeat (apply elem_of_cons in Hin as [->|Hin];
          [first [ rewrite Update_mark by done
                 | rewrite Update_rename by done
                 | rewrite Update_delete by done
                 | rewrite Update_view by done ];
           rewrite Hsel; cbn [asFileItem rbind]; rewrite Hp; exact Hf|]).
  by apply elem_of_nil in Hin.
Qed.

Lemma parent_link_is_protected_witness :
  fsOf (@Update plainToolkit (KeyMsg "d") (opened home 0 demoFS) demoFS)
  = Some demoFS.
Proof.
  destruct (@parent_link_is_protected plainToolkit (opened home 0 demoFS)
              demoFS (parentItem ["home"]) "d")
    as (m' & c & HU & _).
  - vm_compute. reflexivity.
  - vm_compute. reflexivity.
  - vm_compute. reflexivity.
  - vm_compute. reflexivity.
  - apply (bool_decide_unpack _). vm_compute. exact I.
  - rewrite HU. reflexivity.
Defined.

Module ClipFacts.

Ltac unwidget :=
  repeat match goal with
    | Hw : widgetsOnly _ _ |- _ =>
        let b := fresh "b" in
        let mo := fresh "mo" in
        destruct Hw as (b & mo & ->)
    end.

Section Clip.
Context `{Toolkit}.

Lemma updateBrowse_clip msg m fs m' fs' c :
  updateBrowse msg m fs = Ok (m', fs', c) → clipStep m m'.
Proof.
  unfold updateBrowse, clipStep.
  repeat match goal with
         | |- context [key.Matches ?a ?b] =>
             destruct (key.Matches a b) eqn:?
         end;
    try (destruct (asFileItem _); cbn [rbind]; [|done..]);
    repeat case_match; settle; intros ?; simplify_eq; unwidget; cbn;
    auto.
Qed.

Lemma updateMounts_clip msg m fs m' fs' c :
  updateMounts msg m fs = Ok (m', fs', c) → clipStep m m'.
Proof.
  unfold updateMounts, asDir, clipStep.
  repeat match goal with
         | |- context [key.Matches ?a ?b] =>
             destruct (key.Matches a b) eqn:?
         end;
    try (destruct (asMountItem _); cbn [rbind]; [|done..]);
    repeat case_match; cbn [rbind]; settle; intros ?; simplify_eq;
    unwidget; cbn; auto.
Qed.

Lemma handleInput_clip m fs m' fs' :
  handleInput fs m = Ok (m', fs') → clipStep m m'.
Proof.
  unfold handleInput, clipStep. case_decide; [intros ?; simplify_eq; auto|].
  match goal with
  | |- context [rbind ?X _] => destruct X as [fs1|s|s]; [|done..]
  end.
  cbn [rbind]. settle. intros ?; simplify_eq. cbn. auto.
Qed.

Lemma updateInput_clip msg m fs m' fs' c :
  updateInput msg m fs = Ok (m', fs', c) → clipStep m m'.
Proof.
  unfold updateInput.
  repeat match goal with
         | |- context [key.Matches ?a ?b] =>
             destruct (key.Matches a b) eqn:?
         end; cbn [rbind].
  - destruct (textinput_Update _ _). intros ?; simplify_eq. by left.
  - destruct (handleInput fs m) as [[m1 fs1]|s|s] eqn:Hh; [|done..].
    cbn [rbind]. destruct (textinput_Update _ _). intros ?; simplify_eq.
    apply handleInput_clip in Hh. exact Hh.
  - destruct (textinput_Update _ _). intros ?; simplify_eq. by left.
Qed.

Lemma Update_clip msg m fs m' fs' c :
  Update msg m fs = Ok (m', fs', c) → clipStep m m'.
Proof.
  unfold Update. destruct msg as [k|w h].
  - destruct (mode m).
    + apply updateBrowse_clip.
    + apply updateMounts_clip.
    + apply updateInput_clip.
    + unfold updateView. destruct (viewport_Update _ _).
      intros ?; simplify_eq. left. by case_match.
  - settle. intros ?; simplify_eq. unwidget. by left.
Qed.

End Clip.
End ClipFacts.

(** X15 — The clipboard stays well formed: if the snapshot has no path twice
    and is empty whenever the clipboard mode is [ClipNone], the same holds
    after any event. *)
Theorem clipboard_stays_well_formed `{Toolkit} msg m fs m' fs' c :
  clipOk m → Update msg m fs = Ok (m', fs', c) → clipOk m'.
Proof.
  intros [Hnd Hnone] HU.
  apply ClipFacts.Update_clip in HU as [[Hc Hm]|[[Hc Hm]|Hc]].
  - split; [by rewrite Hc|]. rewrite Hc, Hm. done.
  - split; [|done]. rewrite Hc. apply NoDup_fst_map_to_list.
  - split; [rewrite Hc; constructor | by rewrite Hc].
Qed.

Lemma clipboard_stays_well_formed_witness :
  match @Update plainToolkit (KeyMsg "y")
          (set_marked {[ home ++ ["a.txt"] := true ]} (opened home 3 demoFS))
          demoFS with
  | Ok (m', _, _) => clipOk m'
  | _ => False
  end.
Proof.
  destruct (@Update plainToolkit (KeyMsg "y")
              (set_marked {[ home ++ ["a.txt"] := true ]}
                 (opened home 3 demoFS)) demoFS)
    as [[[m' fs'] c]|s|s] eqn:HU.
  - apply (@clipboard_stays_well_formed plainToolkit (KeyMsg "y")
             (set_marked {[ home ++ ["a.txt"] := true ]}
                (opened home 3 demoFS)) demoFS m' fs' c);
      [split; [constructor | reflexivity] | exact HU].
  - vm_compute in HU. discriminate HU.
  - vm_compute in HU. discriminate HU.
Defined.

(** X16 — Start-up never panics, even when the working directory cannot be
    read, and gives a model in [Browse] mode on the working directory, with
    hidden files off, no marks, an empty and well-formed clipboard, the
    default key bindings, and as editor the value of [EDITOR], or ["vi"]
    when that is empty. *)
Theorem initialModel_starts_clean wd ed fs :
  ∃ m0,
    initialModel wd ed fs = Ok m0
    ∧ mode m0 = ModeBrowse ∧ cwd m0 = wd ∧ showHidden m0 = false
    ∧ marked m0 = ∅ ∧ clipboard m0 = [] ∧ clipMode m0 = ClipNone
    ∧ clipOk m0 ∧ keys m0 = newKeyMap
    ∧ editor m0 = (if decide (ed = "") then "vi" else ed)
    ∧ ((os.ReadDir fs wd).2 = None →
       blist.items (browse m0) = catalog wd false (os.ReadDir fs wd).1).
Proof.
  unfold initialModel.
  match goal with
  | |- context [refreshBrowse fs ?m] =>
      set (m1 := m);
      destruct (refreshBrowse_total fs m1) as [b Hb]
  end.
  exists (set_browse b m1). split; [done|]. cbn.
  split_and!; try done.
  - split; [constructor|done].
  - intros Hok. destruct (refreshBrowse_lists fs m1 Hok) as (m' & Hm' & Hi).
    rewrite Hb in Hm'. simplify_eq. exact Hi.
Qed.

(** X17 — The back key leaves [Mounts], [Input] and [View] mode for [Browse]
    mode without touching the files, the current directory, the marks or
    the clipboard: in [Input] mode the buffer is not committed. *)
Theorem back_returns_to_browse `{Toolkit} m fs :
  keys m = newKeyMap → mode m ≠ ModeBrowse →
  ∃ m' c,
    Update (KeyMsg "esc") m fs = Ok (m', fs, c)
    ∧ mode m' = ModeBrowse ∧ cwd m' = cwd m ∧ marked m' = marked m
    ∧ clipboard m' = clipboard m ∧ clipMode m' = clipMode m.
Proof.
  intros Hk Hm. unfold Update. destruct (mode m) eqn:Hmode; [done|..].
  - unfold updateMounts. rewrite Hk.
    change (key.Matches (KeyMsg "esc") (Back newKeyMap)) with true.
    cbv iota.
    destruct (finish_widgets (KeyMsg "esc") (set_mode ModeBrowse m) fs)
      as (m' & c & -> & b & mo & ->).
    by eexists _, _.
  - unfold updateInput. rewrite Hk.
    change (key.Matches (KeyMsg "esc") (Back newKeyMap)) with true.
    cbv iota. cbn [rbind fst snd].
    destruct (textinput_Update _ _). by eexists _, _.
  - unfold updateView. rewrite Hk.
    change (key.Matches (KeyMsg "esc") (Back newKeyMap)) with true.
    cbn [orb]. destruct (viewport_Update _ _). by eexists _, _.
Qed.

Lemma back_returns_to_browse_witness :
  (λ m', (mode m', textinput.Value (input m')))
    <$> modelOf (@Update plainToolkit (KeyMsg "esc")
                   (typing "create" "draft.txt" (opened home 0 demoFS))
                   demoFS)
  = Some (ModeBrowse, "draft.txt")
  ∧ fsOf (@Update plainToolkit (KeyMsg "esc")
            (typing "create" "draft.txt" (opened home 0 demoFS)) demoFS)
    = Some demoFS.
Proof.
  destruct (@back_returns_to_browse plainToolkit
              (typing "create" "draft.txt" (opened home 0 demoFS)) demoFS)
    as (m' & c & HU & Hm & _).
  - vm_compute. reflexivity.
  - vm_compute. discriminate.
  - rewrite HU. cbn [modelOf fsOf fmap option_fmap option_map].
    split; [|reflexivity]. rewrite Hm.
    vm_compute in HU. injection HU as <- _. reflexivity.
Defined.

(** X18 — In [View] mode only the back and quit keys leave the mode; every
    other key stays in [View] mode, and no key changes the files. *)
Theorem view_mode_leaves_on_back_or_quit `{Toolkit} m fs k :
  mode m = ModeView → keys m = newKeyMap →
  ∃ m' c,
    Update (KeyMsg k) m fs = Ok (m', fs, c)
    ∧ mode m' = (if decide (k = "esc" ∨ k = "q") then ModeBrowse
                 else ModeView).
Proof.
  intros Hm Hk. unfold Update, updateView. rewrite Hm, Hk.
  cbn [newKeyMap Back Quit key.Matches].
  destruct (viewport_Update _ _) as [v c].
  eexists _, _. split; [reflexivity|]. cbn.
  destruct (decide (k = "esc" ∨ k = "q")) as [[->| ->]|Hn]; [done|done|].
  rewrite !bool_decide_eq_false_2; [cbn; by rewrite ?Hm|..].
  - intros Hq%list_elem_of_singleton. auto.
  - intros Hq%list_elem_of_singleton. auto.
Qed.

Lemma view_mode_leaves_on_back_or_quit_witness :
  mode <$> modelOf (@Update plainToolkit (KeyMsg "j")
                      (set_mode ModeView (opened home 0 demoFS)) demoFS)
  = Some ModeView.
Proof.
  destruct (@view_mode_leaves_on_back_or_quit plainToolkit
              (set_mode ModeView (opened home 0 demoFS)) demoFS "j")
    as (m' & c & HU & Hm); [reflexivity | reflexivity |].
  rewrite HU. cbn [modelOf fmap option_fmap option_map]. rewrite Hm.
  reflexivity.
Defined.

(** X19 — The enter key in [Mounts] mode.  On a device that is not mounted
    it runs the mount command on the device and stays in [Mounts] mode.
    On a mounted device it runs no command and takes the mount point as
    the current directory: when the mount point is a clean absolute path,
    the directory held afterwards is that path, as it was printed, and the
    mode is [Browse]; when it is not (the [[SWAP]] of a swap area, a
    relative path, a trailing separator), the program holds the string as
    it is and the embedding does not follow it. *)
Theorem mount_menu_enter `{Toolkit} m fs item :
  mode m = ModeMounts → keys m = newKeyMap →
  blist.SelectedItem (mounts m) = Some (MountRow item) →
  (mount item = "" →
   ∃ m' c,
     Update (KeyMsg "enter") m fs
     = Ok (m', udisksctl "mount" (dev item) fs, c)
     ∧ mode m' = ModeMounts ∧ cwd m' = cwd m)
  ∧ (mount item ≠ "" →
     filepath.render (filepath.Join [] (mount item)) = mount item →
     ∃ m' c,
       Update (KeyMsg "enter") m fs = Ok (m', fs, c)
       ∧ mode m' = ModeBrowse
       ∧ cwd m' = filepath.Join [] (mount item)
       ∧ filepath.render (cwd m') = mount item)
  ∧ (mount item ≠ "" →
     filepath.render (filepath.Join [] (mount item)) ≠ mount item →
     Update (KeyMsg "enter") m fs = Beyond (mount item)).
Proof.
  intros Hm Hk Hsel. unfold Update, updateMounts, asDir.
  rewrite Hm, Hk, Hsel.
  change (key.Matches (KeyMsg "enter") (Back newKeyMap)) with false.
  change (key.Matches (KeyMsg "enter") (Enter newKeyMap)) with true.
  cbv iota. cbn [asMountItem rbind].
  split_and!.
  - intros He. rewrite decide_True by done.
    destruct (finish_widgets (KeyMsg "enter")
                (refreshMounts (udisksctl "mount" (dev item) fs) m)
                (udisksctl "mount" (dev item) fs))
      as (m' & c & -> & b & mo & ->).
    eexists _, _. split; [reflexivity|]. by cbn.
  - intros Hne Hclean. rewrite decide_False by done.
    rewrite decide_True by done. cbn [rbind].
    destruct (refreshBrowse_total fs
                (set_cwd (filepath.Join [] (mount item)) m)) as [b0 ->].
    cbn [rbind].
    destruct (finish_widgets (KeyMsg "enter")
                (set_mode ModeBrowse
                   (set_browse b0
                      (set_cwd (filepath.Join [] (mount item)) m))) fs)
      as (m' & c & -> & b & mo & ->).
    eexists _, _. split; [reflexivity|]. by cbn.
  - intros Hne Hraw. rewrite decide_False by done.
    by rewrite decide_False by done.
Qed.

Lemma mount_menu_enter_witness :
  (λ m', (mode m', cwd m'))
    <$> modelOf (@Update plainToolkit (KeyMsg "enter")
                   (onMounts [{| dev := "/dev/sdb1"; mount := "/home/u" |}]
                      (blankModel [])) demoFS)
  = Some (ModeBrowse, home).
Proof.
  destruct (@mount_menu_enter plainToolkit
              (onMounts [{| dev := "/dev/sdb1"; mount := "/home/u" |}]
                 (blankModel [])) demoFS
              {| dev := "/dev/sdb1"; mount := "/home/u" |})
    as (_ & Hmounted & _).
  - vm_compute. reflexivity.
  - vm_compute. reflexivity.
  - vm_compute. reflexivity.
  - destruct Hmounted as (m' & c & HU & Hmode & Hcwd & _);
      [discriminate | vm_compute; reflexivity |].
    rewrite HU. cbn [modelOf fmap option_fmap option_map].
    rewrite Hmode, Hcwd. vm_compute. reflexivity.
Defined.

(** X20 — The rename key followed at once by enter: when the row under the
    cursor is not the parent link, its path is the current directory
    joined with its name, the text input keeps the name as it is (the name
    is valid UTF-8 without control characters), and the name has no white
    space at its ends, confirming the pre-filled name changes no file and
    returns to [Browse] mode. *)
Theorem rename_unedited_changes_nothing `{Toolkit} m fs item :
  mode m = ModeBrowse → keys m = newKeyMap →
  blist.SelectedItem (browse m) = Some (FileRow item) →
  isParent item = false →
  path item = filepath.Join (cwd m) (name item) →
  textinput_sanitize (name item) = name item →
  strings.TrimSpace (name item) = name item → name item ≠ "" →
  ∃ m' c,
    press ["r"; "enter"] m fs = Ok (m', fs, c) ∧ mode m' = ModeBrowse.
Proof.
  intros Hm Hk Hsel Hp Hpath Hsan Htrim Hne.
  unfold press. cbn [foldR fst snd].
  rewrite Update_rename by done. rewrite Hsel. cbn [asFileItem rbind].
  rewrite Hp. cbn [negb]. unfold finish at 1. cbn [mode set_inputTarget
    set_input set_mode]. rewrite !decide_False by discriminate.
  cbn [rbind fst snd].
  rewrite Update_commit by done.
  unfold handleInput. cbn [input set_inputTarget set_input textinput.SetValue
    textinput.Value inputTarget cwd set_mode browse].
  rewrite Hsan, Htrim. rewrite decide_False by done.
  rewrite decide_False by discriminate. rewrite decide_True by done.
  rewrite Hsel. cbn [asFileItem rbind]. rewrite <- Hpath.
  rewrite MoreOsFacts.Rename_same.
  match goal with
  | |- context [refreshBrowse fs ?m1] =>
      destruct (refreshBrowse_total fs m1) as [b ->]
  end.
  cbn [rbind fst snd]. destruct (textinput_Update _ _).
  eexists _, _. split; [reflexivity|]. done.
Qed.

Lemma rename_unedited_changes_nothing_witness :
  fsOf (@press plainToolkit ["r"; "enter"] (opened home 3 demoFS) demoFS)
  = Some demoFS.
Proof.
  destruct (@rename_unedited_changes_nothing plainToolkit
              (opened home 3 demoFS) demoFS
              {| name := "a.txt"; path := home ++ ["a.txt"]; isDir := false;
                 isParent := false |})
    as (m' & c & HU & _).
  - vm_compute. reflexivity.
  - vm_compute. reflexivity.
  - vm_compute. reflexivity.
  - vm_compute. reflexivity.
  - vm_compute. reflexivity.
  - vm_compute. reflexivity.
  - vm_compute. reflexivity.
  - vm_compute. discriminate.
  - rewrite HU. reflexivity.
Defined.

Module KeepFacts.
Import os FsFacts OsFacts CreateFacts.

Lemma MkdirAll_keeps p fs q k :
  stat q fs = Some k → stat q (MkdirAll p fs).1 = Some k.
Proof.
  intros Hq. unfold MkdirAll.
  destruct (mkdirAll p fs) as [fs'|] eqn:Hmk; simpl; [|done].
  rewrite (stat_mkdirAll _ _ _ q Hmk). unfold isPrefix.
  case_bool_decide as Hp; [|done].
  destruct k as [b|]; [|done].
  assert (mkdirAll p fs = None) as Hn; [|congruence].
  apply mkdirAll_blocked. eauto.
Qed.

Lemma OpenFileCreateExcl_keeps p fs q k :
  stat q fs = Some k → stat q (OpenFileCreateExcl p fs).1.1 = Some k.
Proof.
  intros Hq. unfold OpenFileCreateExcl.
  destruct (stat p fs) eqn:Hp; simpl; [done|].
  destruct (put p (File []) fs) as [fs'|] eqn:Hput; simpl; [|done].
  rewrite (stat_put_file_ne _ _ _ _ q Hput); congruence.
Qed.

End KeepFacts.

(** X21 — A commit with target [create] never removes or replaces anything:
    every path that was a regular file is afterwards a regular file with
    the same bytes, and every path that was a directory is a directory. *)
Theorem create_keeps_what_exists `{Toolkit} m fs q k :
  inputTarget m = "create" → os.stat q fs = Some k →
  ∃ m' fs', handleInput fs m = Ok (m', fs') ∧ os.stat q fs' = Some k.
Proof.
  intros Ht Hq. unfold handleInput. case_decide; [eauto|].
  rewrite decide_True by done. case_match; cbn [rbind].
  - match goal with
    | |- context [refreshBrowse ?f ?m1] =>
        destruct (refreshBrowse_total f m1) as [b ->]
    end.
    eexists _, _. split; [reflexivity|].
    by do 2 apply KeepFacts.MkdirAll_keeps.
  - match goal with
    | |- context [refreshBrowse ?f ?m1] =>
        destruct (refreshBrowse_total f m1) as [b ->]
    end.
    eexists _, _. split; [reflexivity|].
    by apply KeepFacts.OpenFileCreateExcl_keeps, KeepFacts.MkdirAll_keeps.
Qed.

Lemma create_keeps_what_exists_witness :
  (λ fs', os.stat (home ++ ["a.txt"]) fs')
    <$> committed (@handleInput plainToolkit demoFS
                     (typing "create" "a.txt/sub/" (opened home 0 demoFS)))
  = Some (Some (KFile (to_bytes "alpha"))).
Proof.
  destruct (@create_keeps_what_exists plainToolkit
              (typing "create" "a.txt/sub/" (opened home 0 demoFS)) demoFS
              (home ++ ["a.txt"]) (KFile (to_bytes "alpha")))
    as (m' & fs' & Hh & Hq).
  - vm_compute. reflexivity.
  - vm_compute. reflexivity.
  - rewrite Hh. cbn [committed fmap option_fmap option_map]. rewrite Hq.
    reflexivity.
Defined.
